(** * Background asset and transition manager of the clock/wallpaper app

    A shallow embedding of the background subsystem of [App]
    (the component that follows the IndexedDB helpers in
    src/components/CalendarWidget.tsx) and of the type declarations
    that close the same file.

    The React component is modelled as a record [World] holding the
    component state ([bgImage], [nextBgImage], ...), the browser state it
    touches (IndexedDB store, object-URL allocator, pending timers) and a
    trace of the observable effects (store reads and writes, console
    output, object URLs created and revoked).  Every callback of the
    source is a function on [World]; the browser event loop fires pending
    callbacks in order of their due time.

    Besides the background subsystem the file covers the style toggles
    of [App], [generateAiBackground] of the same file, and the
    formatting helpers of src/components/DigitalClock.tsx
    ([toChineseNum], [getShichen], [formatHour], [formatMinSec]). *)

From Stdlib Require Import ZArith QArith Bool List Ascii String.
From stdpp Require Import base option list strings gmap pretty relations.
Close Scope Q_scope.
Local Open Scope string_scope.

(** ** Source-level constants *)

Definition KEY_BG : string := "current_bg_file".
Definition KEY_BG_TYPE : string := "current_bg_type".

(** The initial value of the [bgImage] state, also the default [dayBgUrl]. *)
Definition DEFAULT_BG : string := "https://picsum.photos/1920/1080?blur=2".
Definition DEFAULT_NIGHT_BG : string :=
  "https://images.unsplash.com/photo-1472552944129-b035e9ea3744?q=80&w=1920&auto=format&fit=crop".
Definition DEFAULT_BING_API : string := "https://bing.img.run/rand.php".

(** ** Enumerations of types.ts *)

Inductive ClockStyle :=
| IOS_MODERN | IOS_CLEAN | ANALOG | NEON | ELEGANT | WORD
| CHINESE_VERTICAL | CHINESE_INK | CHINESE_CLASSIC.

Inductive CalendarStyle :=
| GRID | LIST | BIG_CARD | STRIP | DOTS | RED_FESTIVE | INK_SCROLL.

(** String enums: each member's value is its own name. *)
Definition ClockStyle_value (c : ClockStyle) : string :=
  match c with
  | IOS_MODERN => "IOS_MODERN" | IOS_CLEAN => "IOS_CLEAN"
  | ANALOG => "ANALOG" | NEON => "NEON" | ELEGANT => "ELEGANT"
  | WORD => "WORD" | CHINESE_VERTICAL => "CHINESE_VERTICAL"
  | CHINESE_INK => "CHINESE_INK" | CHINESE_CLASSIC => "CHINESE_CLASSIC"
  end.

Definition CalendarStyle_value (c : CalendarStyle) : string :=
  match c with
  | GRID => "GRID" | LIST => "LIST" | BIG_CARD => "BIG_CARD"
  | STRIP => "STRIP" | DOTS => "DOTS" | RED_FESTIVE => "RED_FESTIVE"
  | INK_SCROLL => "INK_SCROLL"
  end.

(** [Object.values(ClockStyle)], in declaration order. *)
Definition ClockStyle_values : list ClockStyle :=
  [IOS_MODERN; IOS_CLEAN; ANALOG; NEON; ELEGANT; WORD;
   CHINESE_VERTICAL; CHINESE_INK; CHINESE_CLASSIC].

Definition CalendarStyle_values : list CalendarStyle :=
  [GRID; LIST; BIG_CARD; STRIP; DOTS; RED_FESTIVE; INK_SCROLL].

Definition ClockStyle_of_string (s : string) : option ClockStyle :=
  find (fun c => String.eqb (ClockStyle_value c) s) ClockStyle_values.

Definition CalendarStyle_of_string (s : string) : option CalendarStyle :=
  find (fun c => String.eqb (CalendarStyle_value c) s) CalendarStyle_values.

(** The ['image' | 'video'] union used for [bgType] and [nextBgType]. *)
Inductive Kind := image | video.

Definition Kind_tag (k : Kind) : string :=
  match k with image => "image" | video => "video" end.

(** The [AppSettings] interface. Numbers that the settings sliders
    produce are decimal fractions; they are kept as rationals. *)
Record AppSettings := mkSettings {
  showSeconds : bool;
  is24Hour : bool;
  clockStyle : ClockStyle;
  calendarStyle : CalendarStyle;
  showCalendar : bool;
  brightness : Q;
  bingApiUrl : string;
  clockScale : Q;
  calendarScale : Q;
  enableDayNightMode : bool;
  dayBgUrl : string;
  nightBgUrl : string
}.

(** [{...s, dayBgUrl: url}] and [{...s, nightBgUrl: url}]. *)
Definition with_dayBgUrl (url : string) (s : AppSettings) : AppSettings :=
  mkSettings (showSeconds s) (is24Hour s) (clockStyle s) (calendarStyle s)
    (showCalendar s) (brightness s) (bingApiUrl s) (clockScale s)
    (calendarScale s) (enableDayNightMode s) url (nightBgUrl s).

Definition with_nightBgUrl (url : string) (s : AppSettings) : AppSettings :=
  mkSettings (showSeconds s) (is24Hour s) (clockStyle s) (calendarStyle s)
    (showCalendar s) (brightness s) (bingApiUrl s) (clockScale s)
    (calendarScale s) (enableDayNightMode s) (dayBgUrl s) url.

(** [{...s, [isDay ? 'dayBgUrl' : 'nightBgUrl']: url}]. *)
Definition with_slot (isDay : bool) (url : string) (s : AppSettings) : AppSettings :=
  if isDay then with_dayBgUrl url s else with_nightBgUrl url s.

(** The object literal returned when nothing usable is stored. *)
Definition defaultSettings : AppSettings :=
  mkSettings true false IOS_MODERN GRID true (1 # 5)%Q DEFAULT_BING_API
    1%Q (1 # 2)%Q false DEFAULT_BG DEFAULT_NIGHT_BG.

(** ** String helpers: [startsWith] and the extension test of [isVideoUrl] *)

Definition startsWith (s p : string) : bool := String.prefix p s.

Definition toLowerAscii (c : ascii) : ascii :=
  let n := nat_of_ascii c in
  if (65 <=? n)%nat && (n <=? 90)%nat then ascii_of_nat (n + 32) else c.

Fixpoint toLower (s : string) : string :=
  match s with
  | EmptyString => EmptyString
  | String c r => String (toLowerAscii c) (toLower r)
  end.

Definition endsWith (s suf : string) : bool :=
  let n := String.length s in
  let k := String.length suf in
  (k <=? n)%nat && String.eqb (String.substring (n - k) k s) suf.

(** [url.match(/\.(mp4|webm|ogg)$/i)]: the flag [i] folds ASCII case and,
    without the [m] flag, [$] matches at the end of the input only. *)
Definition hasVideoExtension (url : string) : bool :=
  let l := toLower url in
  endsWith l ".mp4" || endsWith l ".webm" || endsWith l ".ogg".

(** [isVideoUrl]: the empty string is falsy. *)
Definition isVideoUrl (url : string) : bool :=
  if String.eqb url "" then false
  else startsWith url "data:video" || startsWith url "blob:" || hasVideoExtension url.

(** ** Day/night selection *)

(** [time.hours >= 6 && time.hours < 18]. *)
Definition isDayTime (hours : Z) : bool := (6 <=? hours)%Z && (hours <? 18)%Z.

(** [isDayTime ? settings.dayBgUrl : settings.nightBgUrl]. *)
Definition desiredSource (hours : Z) (dayUrl nightUrl : string) : string :=
  if isDayTime hours then dayUrl else nightUrl.

(** ** Asset compressor: the arithmetic of [img.onload] *)

Definition maxDim : Z := 1920.

(** [Math.round (a / b)] for integers [0 <= a] and [0 < b]: the nearest
    integer, halves upwards.  The source divides two integer-valued
    doubles whose quotient is at most [maxDim]; for image dimensions (far
    below 2^31) the correctly rounded quotient lies on the same side of
    every half-integer as the exact one, so the integer formula is exact. *)
Definition roundDiv (a b : Z) : Z := ((2 * a + b) / (2 * b))%Z.

(** The [width]/[height] the canvas is given, from the decoded image's. *)
Definition targetSize (width height : Z) : Z * Z :=
  if (width >? maxDim)%Z || (height >? maxDim)%Z then
    if (width >? height)%Z
    then (maxDim, roundDiv (height * maxDim) width)
    else (roundDiv (width * maxDim) height, maxDim)
  else (width, height).

(** ** Values held by the browser *)

(** A [File] or [Blob]: its identity, its MIME [type], what decoding it
    as an image gives ([Some (width, height)] when [img.onload] fires,
    [None] when [img.onerror] does) and the data URL a [FileReader]
    produces for it. *)
Record Blob := mkBlob {
  blob_id : nat;
  blob_type : string;
  blob_image : option (Z * Z);
  blob_dataURL : string
}.

(** [Blob | string], the values of the IndexedDB store and the argument
    of [compressImage]. *)
Inductive Asset :=
| AStr (s : string)
| ABlob (b : Blob).

(** Observable effects, in the order they happen. *)
Inductive Event :=
| EvDbPut (key : string) (data : Asset)
| EvDbGet (key : string)
| EvLocalStorageSet (key : string) (value : AppSettings)
| EvConsoleWarn (msg : string)
| EvConsoleError (msg : string)
| EvCreateObjectURL (url : string) (b : Blob)
| EvRevokeObjectURL (url : string).

(** What the environment answers to a preload started by
    [triggerBgTransition]: whether the load event ([onload],
    [onloadeddata]) or the error event fires, and after how long. *)
Record Preload := mkPreload { loaded : bool; latency : N }.

(** The continuations [triggerBgTransition] leaves with the browser. *)
Inductive Callback :=
| CbPreloadDone (ok : bool) (newSource : string) (type : Kind) (bgImage_cl : string)
| CbFrame1
| CbFrame2
| CbSwap (newSource : string) (type : Kind) (bgImage_cl : string)
| CbClearNext.

Record Timer := mkTimer { due : N; cb : Callback }.

(** Component state, browser state and effect trace. *)
Record World := mkWorld {
  bgImage : string;
  bgType : Kind;
  nextBgImage : option string;
  nextBgType : Kind;
  isBgTransitioning : bool;
  settings : AppSettings;
  now : N;
  timers : list Timer;
  db : gmap string Asset;
  dbUp : bool;
  objectURLs : nat;
  trace : list Event
}.

Definition setBgImage (v : string) (w : World) : World :=
  mkWorld v (bgType w) (nextBgImage w) (nextBgType w) (isBgTransitioning w)
    (settings w) (now w) (timers w) (db w) (dbUp w) (objectURLs w) (trace w).

Definition setBgType (v : Kind) (w : World) : World :=
  mkWorld (bgImage w) v (nextBgImage w) (nextBgType w) (isBgTransitioning w)
    (settings w) (now w) (timers w) (db w) (dbUp w) (objectURLs w) (trace w).

Definition setNextBgImage (v : option string) (w : World) : World :=
  mkWorld (bgImage w) (bgType w) v (nextBgType w) (isBgTransitioning w)
    (settings w) (now w) (timers w) (db w) (dbUp w) (objectURLs w) (trace w).

Definition setNextBgType (v : Kind) (w : World) : World :=
  mkWorld (bgImage w) (bgType w) (nextBgImage w) v (isBgTransitioning w)
    (settings w) (now w) (timers w) (db w) (dbUp w) (objectURLs w) (trace w).

Definition setIsBgTransitioning (v : bool) (w : World) : World :=
  mkWorld (bgImage w) (bgType w) (nextBgImage w) (nextBgType w) v
    (settings w) (now w) (timers w) (db w) (dbUp w) (objectURLs w) (trace w).

Definition with_settings (v : AppSettings) (w : World) : World :=
  mkWorld (bgImage w) (bgType w) (nextBgImage w) (nextBgType w) (isBgTransitioning w)
    v (now w) (timers w) (db w) (dbUp w) (objectURLs w) (trace w).

Definition with_now (v : N) (w : World) : World :=
  mkWorld (bgImage w) (bgType w) (nextBgImage w) (nextBgType w) (isBgTransitioning w)
    (settings w) v (timers w) (db w) (dbUp w) (objectURLs w) (trace w).

Definition with_timers (v : list Timer) (w : World) : World :=
  mkWorld (bgImage w) (bgType w) (nextBgImage w) (nextBgType w) (isBgTransitioning w)
    (settings w) (now w) v (db w) (dbUp w) (objectURLs w) (trace w).

Definition with_db (v : gmap string Asset) (w : World) : World :=
  mkWorld (bgImage w) (bgType w) (nextBgImage w) (nextBgType w) (isBgTransitioning w)
    (settings w) (now w) (timers w) v (dbUp w) (objectURLs w) (trace w).

Definition with_objectURLs (v : nat) (w : World) : World :=
  mkWorld (bgImage w) (bgType w) (nextBgImage w) (nextBgType w) (isBgTransitioning w)
    (settings w) (now w) (timers w) (db w) (dbUp w) v (trace w).

Definition emit (e : Event) (w : World) : World :=
  mkWorld (bgImage w) (bgType w) (nextBgImage w) (nextBgType w) (isBgTransitioning w)
    (settings w) (now w) (timers w) (db w) (dbUp w) (objectURLs w) (trace w ++ [e]).

(** The state of a freshly mounted [App]: the [useState] initialisers,
    over the browser's store and object-URL allocator. *)
Definition mount (s : AppSettings) (store : gmap string Asset) (up : bool)
    (urls : nat) : World :=
  mkWorld DEFAULT_BG image None image false s 0%N [] store up urls [].

(** Reloading the page: a new [App] over the same browser.  The settings
    survive through localStorage (they are saved on every change), the
    store and the allocator are the browser's; timers of the old page die. *)
Definition reload (w : World) : World :=
  mount (settings w) (db w) (dbUp w) (objectURLs w).

(** ** Browser services *)

Definition consoleWarn (msg : string) : World -> World := emit (EvConsoleWarn msg).
Definition consoleError (msg : string) : World -> World := emit (EvConsoleError msg).

(** [setTimeout(c, ms)]. *)
Definition setTimeout (c : Callback) (ms : N) (w : World) : World :=
  with_timers (timers w ++ [mkTimer (now w + ms)%N c]) w.

(** One display frame, in milliseconds, for [requestAnimationFrame]. *)
Definition FRAME : N := 16.

Definition requestAnimationFrame (c : Callback) (w : World) : World :=
  setTimeout c FRAME w.

(** [URL.createObjectURL]: a URL of scheme [blob:] never handed out before. *)
Definition createObjectURL (b : Blob) (w : World) : string * World :=
  let url := "blob:" +:+ pretty (objectURLs w) in
  (url, emit (EvCreateObjectURL url b) (with_objectURLs (S (objectURLs w)) w)).

Definition revokeObjectURL (url : string) : World -> World :=
  emit (EvRevokeObjectURL url).

(** [saveAssetToDB]: when [initDB] rejects, the [catch] logs and the
    write is lost. *)
Definition saveAssetToDB (key : string) (data : Asset) (w : World) : World :=
  if dbUp w then emit (EvDbPut key data) (with_db (<[key := data]> (db w)) w)
  else consoleError "Failed to save to DB:" w.

(** [getAssetFromDB]: [undefined] for a missing key and when [initDB]
    rejects. *)
Definition getAssetFromDB (key : string) (w : World) : option Asset * World :=
  if dbUp w then (db w !! key, emit (EvDbGet key) w)
  else (None, consoleError "Failed to read from DB:" w).

(** [setSettings(f)] followed by the effect that saves the settings to
    localStorage whenever they change. *)
Definition setSettings (f : AppSettings -> AppSettings) (w : World) : World :=
  let s := f (settings w) in
  emit (EvLocalStorageSet "clockSettings" s) (with_settings s w).

(** ** Asset compressor *)

(** The canvas [compressImage] draws on: its size and the image drawn. *)
Record Canvas := mkCanvas {
  canvas_width : Z;
  canvas_height : Z;
  canvas_image : Asset
}.

Inductive CompressError := DecodeError | CanvasContextFailed.

(** A settled promise. *)
Inductive Settled (A : Type) :=
| Resolved (a : A)
| Rejected (e : CompressError).
Arguments Resolved {A} a.
Arguments Rejected {A} e.

Definition JPEG_QUALITY : Q := (7 # 10)%Q.

Section App.

#[local] Set Default Proof Using "Type".

(** [canvas.toDataURL(type, quality)], the browser's encoder. *)
Variable toDataURL : Canvas -> string -> Q -> string.

(** [compressImage(source)].  [decoded] is what loading the source into
    an [Image] gives, [ctx2d] whether [canvas.getContext('2d')] returns
    a context. *)
Definition compressImage (source : Asset) (decoded : option (Z * Z))
    (ctx2d : bool) (w : World) : Settled string * World :=
  let isBlob := match source with ABlob _ => true | AStr _ => false end in
  let '(url, w1) :=
    match source with
    | ABlob b => createObjectURL b w
    | AStr s => (s, w)
    end in
  match decoded with
  | Some (width, height) =>
      let '(width', height') := targetSize width height in
      let canvas := mkCanvas width' height' source in
      let r :=
        if ctx2d then Resolved (toDataURL canvas "image/jpeg" JPEG_QUALITY)
        else Rejected CanvasContextFailed in
      (r, if isBlob then revokeObjectURL url w1 else w1)
  | None =>
      (Rejected DecodeError, if isBlob then revokeObjectURL url w1 else w1)
  end.

(** ** Transition engine *)

(** [triggerBgTransition(newSource, type)] up to its first [await].
    [bgImage_cl] is the [bgImage] the callback closed over
    ([useCallback(..., [bgImage])]); [p] is the outcome of the preload it
    starts. *)
Definition triggerBgTransition (p : Preload) (bgImage_cl newSource : string)
    (type : Kind) (w : World) : World :=
  if String.eqb newSource bgImage_cl then w
  else setTimeout (CbPreloadDone (loaded p) newSource type bgImage_cl) (latency p) w.

(** The rest of [triggerBgTransition], one callback at a time. *)
Definition runCallback (c : Callback) (w : World) : World :=
  match c with
  | CbPreloadDone ok newSource type bgImage_cl =>
      (* 1. the preload promise settles; only the image branch logs *)
      let w1 :=
        match type with
        | image =>
            if ok then w
            else consoleWarn "Image preload failed, attempting to show anyway." w
        | video => w
        end in
      (* 2. state update for the transition *)
      let w2 := setNextBgType type (setNextBgImage (Some newSource) w1) in
      (* 3. double requestAnimationFrame *)
      let w3 := requestAnimationFrame CbFrame1 w2 in
      (* 4. complete the swap after the animation *)
      setTimeout (CbSwap newSource type bgImage_cl) 1500%N w3
  | CbFrame1 => requestAnimationFrame CbFrame2 w
  | CbFrame2 => setIsBgTransitioning true w
  | CbSwap newSource type bgImage_cl =>
      (* the body of this [if] is a comment: nothing is revoked *)
      let w1 :=
        if startsWith bgImage_cl "blob:" && negb (String.eqb bgImage_cl newSource)
        then w else w in
      let w2 := setIsBgTransitioning false (setBgType type (setBgImage newSource w1)) in
      setTimeout CbClearNext 100%N w2
  | CbClearNext => setNextBgImage None w
  end.

(** ** The event loop *)

(** The timer that fires next: the earliest one, the first registered
    among equals; and the timers left. *)
Fixpoint earliest (l : list Timer) : option (Timer * list Timer) :=
  match l with
  | [] => None
  | t :: r =>
      match earliest r with
      | None => Some (t, [])
      | Some (m, r') =>
          if (due t <=? due m)%N then Some (t, r) else Some (m, t :: r')
      end
  end.

Definition eventLoopStep (w : World) : option World :=
  match earliest (timers w) with
  | None => None
  | Some (t, rest) =>
      Some (runCallback (cb t) (with_timers rest (with_now (N.max (now w) (due t)) w)))
  end.

(** Run until no callback is pending (or the fuel is spent). *)
Fixpoint runLoop (fuel : nat) (w : World) : World :=
  match fuel with
  | O => w
  | S n =>
      match eventLoopStep w with
      | None => w
      | Some w' => runLoop n w'
      end
  end.

(** ** Phases *)

Inductive Phase := Idle | Preloading | Fading | Finalizing.

(** The stage of the transition a pending callback belongs to: a
    transition is preloading until its media event fires, fading from
    then until the swap, finalizing from the swap until the top layer is
    cleared.  Frame callbacks only drive the opacity flag. *)
Definition phaseOfCallback (c : Callback) : option Phase :=
  match c with
  | CbPreloadDone _ _ _ _ => Some Preloading
  | CbSwap _ _ _ => Some Fading
  | CbClearNext => Some Finalizing
  | CbFrame1 | CbFrame2 => None
  end.

(** The stages of the transitions in flight, oldest callback first. *)
Definition phases (w : World) : list Phase :=
  omap (fun t => phaseOfCallback (cb t)) (timers w).

(** The phase of the engine: [Idle] when no transition is in flight. *)
Definition phase (w : World) : Phase :=
  match phases w with
  | [] => Idle
  | p :: _ => p
  end.


(** ** Startup restoration *)

(** [savedType || 'image'], for the tags the application stores. *)
Definition kindOfSaved (savedType : option Asset) : Kind :=
  match savedType with
  | Some (AStr "video") => video
  | _ => image
  end.

(** The mount effect [restoreBackground].  The effect closes over the
    [triggerBgTransition] of the render it belongs to, whose [bgImage] is
    the one on screen when the effect runs. *)
Definition restoreBackground (p : Preload) (w : World) : World :=
  if enableDayNightMode (settings w) then w
  else
    let '(savedType, w1) := getAssetFromDB KEY_BG_TYPE w in
    let '(savedAsset, w2) := getAssetFromDB KEY_BG w1 in
    match savedAsset with
    | Some (ABlob b) =>
        let '(url, w3) := createObjectURL b w2 in
        if String.eqb url "" then w3
        else triggerBgTransition p (bgImage w) url (kindOfSaved savedType) w3
    | Some (AStr s) =>
        if String.eqb s "" then w2
        else triggerBgTransition p (bgImage w) s (kindOfSaved savedType) w2
    | None => w2
    end.

(** ** Day/night scheduler *)

(** The transition the day/night effect asks for, if any. *)
Definition dayNightRequest (hours : Z) (w : World) : option (string * Kind) :=
  if enableDayNightMode (settings w) then
    let targetUrl :=
      desiredSource hours (dayBgUrl (settings w)) (nightBgUrl (settings w)) in
    if negb (String.eqb targetUrl "")
       && negb (String.eqb (bgImage w) targetUrl)
       && match nextBgImage w with
          | Some n => negb (String.eqb n targetUrl)
          | None => true
          end
    then Some (targetUrl, if isVideoUrl targetUrl then video else image)
    else None
  else None.

Definition dayNightEffect (p : Preload) (hours : Z) (w : World) : World :=
  match dayNightRequest hours w with
  | Some (targetUrl, type) => triggerBgTransition p (bgImage w) targetUrl type w
  | None => w
  end.

(** ** Ingestion handlers

    Each handler is taken as one uninterrupted step: the component state
    it reads after an [await] is the one it started with.  [hour] is
    [new Date().getHours()]; opening and closing the settings panel and
    the loading spinner are left out. *)

Definition handleImageFileChange (file : option Blob) (ctx2d : bool) (hour : Z)
    (p : Preload) (w : World) : World :=
  match file with
  | None => w
  | Some file =>
      match compressImage (ABlob file) (blob_image file) ctx2d w with
      | (Resolved compressedUrl, w1) =>
          if negb (enableDayNightMode (settings w)) then
            let w2 := saveAssetToDB KEY_BG (AStr compressedUrl) w1 in
            let w3 := saveAssetToDB KEY_BG_TYPE (AStr "image") w2 in
            triggerBgTransition p (bgImage w) compressedUrl image w3
          else
            setSettings (with_slot (isDayTime hour) compressedUrl) w1
      | (Rejected _, w1) =>
          let w2 := consoleError "Compression failed" w1 in
          triggerBgTransition p (bgImage w) (blob_dataURL file) image w2
      end
  end.

Definition handleVideoFileChange (file : option Blob) (hour : Z)
    (p : Preload) (w : World) : World :=
  match file with
  | None => w
  | Some file =>
      let '(videoUrl, w1) := createObjectURL file w in
      if negb (enableDayNightMode (settings w)) then
        let w2 := saveAssetToDB KEY_BG (ABlob file) w1 in
        let w3 := saveAssetToDB KEY_BG_TYPE (AStr "video") w2 in
        triggerBgTransition p (bgImage w) videoUrl video w3
      else
        setSettings (with_slot (isDayTime hour) videoUrl) w1
  end.

(** The two upload buttons of the settings panel.  A failed compression
    is an unhandled rejection: nothing is stored. *)
Definition handleDayNightUpload (file : option Blob) (isDaySlot : bool)
    (ctx2d : bool) (w : World) : World :=
  match file with
  | None => w
  | Some file =>
      if startsWith (blob_type file) "video" then
        let '(url, w1) := createObjectURL file w in
        setSettings (with_slot isDaySlot url) w1
      else
        match compressImage (ABlob file) (blob_image file) ctx2d w with
        | (Resolved url, w1) => setSettings (with_slot isDaySlot url) w1
        | (Rejected _, w1) => w1
        end
  end.

Definition includes (s sub : string) : bool :=
  match String.index 0 sub s with Some _ => true | None => false end.

(** [handleFetchBg].  [entropy] is the cache-busting suffix, [response]
    the body of the reply ([None] when [fetch] fails or the status is not
    ok). *)
Definition handleFetchBg (entropy : string) (response : option Blob)
    (ctx2d : bool) (hour : Z) (p : Preload) (w : World) : World :=
  let url := bingApiUrl (settings w) in
  if String.eqb url "" then w
  else
    let separator := if includes url "?" then "&" else "?" in
    let fetchUrl := url +:+ separator +:+ "t=" +:+ entropy in
    let fallback (w1 : World) : World :=
      let w2 := consoleWarn "Fetch or compress failed, fallback to URL load" w1 in
      if negb (enableDayNightMode (settings w)) then
        let w3 := saveAssetToDB KEY_BG (AStr fetchUrl) w2 in
        let w4 := saveAssetToDB KEY_BG_TYPE (AStr "image") w3 in
        triggerBgTransition p (bgImage w) fetchUrl image w4
      else
        setSettings (with_slot (isDayTime hour) fetchUrl) w2 in
    match response with
    | None => fallback w
    | Some blob =>
        match compressImage (ABlob blob) (blob_image blob) ctx2d w with
        | (Resolved compressedDataUrl, w1) =>
            if negb (enableDayNightMode (settings w)) then
              let w2 := saveAssetToDB KEY_BG (AStr compressedDataUrl) w1 in
              let w3 := saveAssetToDB KEY_BG_TYPE (AStr "image") w2 in
              triggerBgTransition p (bgImage w) compressedDataUrl image w3
            else
              setSettings (with_slot (isDayTime hour) compressedDataUrl) w1
        | (Rejected _, w1) => fallback w1
        end
    end.

(** ** The component as a transition system *)

(** Everything that can happen to a mounted [App]. *)
Inductive Action :=
| ActTrigger (p : Preload) (bgImage_cl newSource : string) (type : Kind)
| ActRestore (p : Preload)
| ActDayNight (p : Preload) (hours : Z)
| ActImageFile (file : option Blob) (ctx2d : bool) (hour : Z) (p : Preload)
| ActVideoFile (file : option Blob) (hour : Z) (p : Preload)
| ActDayNightUpload (file : option Blob) (isDaySlot : bool) (ctx2d : bool)
| ActFetchBg (entropy : string) (response : option Blob) (ctx2d : bool)
    (hour : Z) (p : Preload)
| ActSetSettings (f : AppSettings -> AppSettings)
| ActFire (n : nat) (at_time : N).

(** The [n]-th pending callback fires.  Browsers give no order between
    media events, frames and throttled timers, so any pending callback
    may be the next one. *)
Definition fire (n : nat) (at_time : N) (w : World) : World :=
  match timers w !! n with
  | Some t => runCallback (cb t) (with_timers (delete n (timers w)) (with_now at_time w))
  | None => w
  end.

Definition perform (a : Action) (w : World) : World :=
  match a with
  | ActTrigger p bgImage_cl newSource type =>
      triggerBgTransition p bgImage_cl newSource type w
  | ActRestore p => restoreBackground p w
  | ActDayNight p hours => dayNightEffect p hours w
  | ActImageFile file ctx2d hour p => handleImageFileChange file ctx2d hour p w
  | ActVideoFile file hour p => handleVideoFileChange file hour p w
  | ActDayNightUpload file isDaySlot ctx2d => handleDayNightUpload file isDaySlot ctx2d w
  | ActFetchBg entropy response ctx2d hour p =>
      handleFetchBg entropy response ctx2d hour p w
  | ActSetSettings f => setSettings f w
  | ActFire n at_time => fire n at_time w
  end.

Definition step (w w' : World) : Prop := exists a, w' = perform a w.

Definition reachable (w : World) : Prop :=
  exists s store up urls, rtc step (mount s store up urls) w.

(** A step that does not start a transition while another is in flight. *)
Definition serialStep (w w' : World) : Prop :=
  step w w' /\ (phases w = [] \/ phases w' <> (phases w ++ [Preloading])%list).

Definition reachableSerially (w : World) : Prop :=
  exists s store up urls, rtc serialStep (mount s store up urls) w.

(** ** Loading the settings from localStorage *)

#[local] Unset Elimination Schemes.
Inductive json :=
| JNull
| JBool (b : bool)
| JNum (q : Q)
| JStr (s : string)
| JArr (l : list json)
| JObj (l : list (string * json)).
#[local] Set Elimination Schemes.

(** A JavaScript object as the loader sees it: its named properties, and
    its elements when it is an array. *)
Record JsObject := mkJsObject {
  elements : option (list json);
  props : gmap string json
}.

(** [JSON.parse]; [None] when it throws a [SyntaxError]. *)
Variable JSON_parse : string -> option json.

(** The properties of a parsed object literal: of two members with one
    name the later wins. *)
Definition propsOf (l : list (string * json)) : gmap string json :=
  list_to_map (reverse l).

(** [Object.values(ClockStyle).includes(parsed.clockStyle)]. *)
Definition isClockStyle (v : option json) : bool :=
  match v with
  | Some (JStr s) => bool_decide (is_Some (ClockStyle_of_string s))
  | _ => false
  end.

(** [if (parsed.k === undefined) parsed.k = d]. *)
Definition fillDefault (k : string) (d : json) (o : gmap string json) : gmap string json :=
  match o !! k with
  | None => <[k := d]> o
  | Some _ => o
  end.

(** The safety check: a [clockStyle] outside the enum is replaced. *)
Definition checkClockStyle (parsed : gmap string json) : gmap string json :=
  if isClockStyle (parsed !! "clockStyle") then parsed
  else <["clockStyle" := JStr (ClockStyle_value IOS_MODERN)]> parsed.

(** The safety check and the migration, in source order. *)
Definition migrate (parsed : gmap string json) : gmap string json :=
  let o0 := checkClockStyle parsed in
  let o1 := fillDefault "clockScale" (JNum 1%Q) o0 in
  let o2 := fillDefault "calendarScale" (JNum (1 # 2)%Q) o1 in
  let o3 := fillDefault "enableDayNightMode" (JBool false) o2 in
  let o4 := fillDefault "dayBgUrl" (JStr DEFAULT_BG) o3 in
  fillDefault "nightBgUrl" (JStr DEFAULT_NIGHT_BG) o4.

(** An [AppSettings] value as a JavaScript object. *)
Definition settingsObject (s : AppSettings) : gmap string json :=
  <["showSeconds" := JBool (showSeconds s)]>
  (<["is24Hour" := JBool (is24Hour s)]>
  (<["clockStyle" := JStr (ClockStyle_value (clockStyle s))]>
  (<["calendarStyle" := JStr (CalendarStyle_value (calendarStyle s))]>
  (<["showCalendar" := JBool (showCalendar s)]>
  (<["brightness" := JNum (brightness s)]>
  (<["bingApiUrl" := JStr (bingApiUrl s)]>
  (<["clockScale" := JNum (clockScale s)]>
  (<["calendarScale" := JNum (calendarScale s)]>
  (<["enableDayNightMode" := JBool (enableDayNightMode s)]>
  (<["dayBgUrl" := JStr (dayBgUrl s)]>
  (<["nightBgUrl" := JStr (nightBgUrl s)]> ∅))))))))))).

Definition defaultObject : JsObject :=
  mkJsObject None (settingsObject defaultSettings).

(** The initialiser of the [settings] state.  [saved] is
    [localStorage.getItem('clockSettings')].  The file is a module, hence
    strict code: reading a property of [null] and assigning one to a
    primitive both throw, and the [catch] falls through to the defaults. *)
Definition loadSettings (saved : option string) : JsObject :=
  match saved with
  | None => defaultObject
  | Some text =>
      if String.eqb text "" then defaultObject
      else
        match JSON_parse text with
        | Some (JObj l) => mkJsObject None (migrate (propsOf l))
        | Some (JArr l) => mkJsObject (Some l) (migrate ∅)
        | Some (JNull | JBool _ | JNum _ | JStr _) => defaultObject
        | None => defaultObject
        end
  end.

(** Reading an object at the types of the [AppSettings] interface. *)
Definition getBool (o : gmap string json) (k : string) : option bool :=
  match o !! k with Some (JBool b) => Some b | _ => None end.

Definition getNum (o : gmap string json) (k : string) : option Q :=
  match o !! k with Some (JNum q) => Some q | _ => None end.

Definition getStr (o : gmap string json) (k : string) : option string :=
  match o !! k with Some (JStr s) => Some s | _ => None end.

Definition asAppSettings (o : gmap string json) : option AppSettings :=
  a ← getBool o "showSeconds";
  b ← getBool o "is24Hour";
  c ← getStr o "clockStyle" ≫= ClockStyle_of_string;
  d ← getStr o "calendarStyle" ≫= CalendarStyle_of_string;
  e ← getBool o "showCalendar";
  f ← getNum o "brightness";
  g ← getStr o "bingApiUrl";
  h ← getNum o "clockScale";
  i ← getNum o "calendarScale";
  j ← getBool o "enableDayNightMode";
  k ← getStr o "dayBgUrl";
  l ← getStr o "nightBgUrl";
  Some (mkSettings a b c d e f g h i j k l).

(** Every property of the interface is there ("fully populated") and has
    the declared type ("valid"). *)
Definition fullyPopulated (o : JsObject) : Prop :=
  Forall (fun k => is_Some (props o !! k))
    ["showSeconds"; "is24Hour"; "clockStyle"; "calendarStyle"; "showCalendar";
     "brightness"; "bingApiUrl"; "clockScale"; "calendarScale";
     "enableDayNightMode"; "dayBgUrl"; "nightBgUrl"].

Definition validAppSettings (o : JsObject) : Prop :=
  is_Some (asAppSettings (props o)).

(** The properties the loader leaves as stored. *)
Definition unmigrated : list string :=
  ["showSeconds"; "is24Hour"; "calendarStyle"; "showCalendar"; "brightness";
   "bingApiUrl"].

(** ** Style toggles *)

Definition with_clockStyle (c : ClockStyle) (s : AppSettings) : AppSettings :=
  mkSettings (showSeconds s) (is24Hour s) c (calendarStyle s)
    (showCalendar s) (brightness s) (bingApiUrl s) (clockScale s)
    (calendarScale s) (enableDayNightMode s) (dayBgUrl s) (nightBgUrl s).

Definition with_calendarStyle (c : CalendarStyle) (s : AppSettings) : AppSettings :=
  mkSettings (showSeconds s) (is24Hour s) (clockStyle s) c
    (showCalendar s) (brightness s) (bingApiUrl s) (clockScale s)
    (calendarScale s) (enableDayNightMode s) (dayBgUrl s) (nightBgUrl s).

(** [styles.indexOf(x)] on an array of enum values (strings compared
    with [===]); -1 when [x] is not there. *)
Fixpoint indexOf (x : string) (styles : list string) : Z :=
  match styles with
  | [] => (-1)%Z
  | y :: r =>
      if String.eqb y x then 0%Z
      else let i := indexOf x r in if (i <? 0)%Z then (-1)%Z else (i + 1)%Z
  end.

(** [styles[(currentIndex + 1) % styles.length]]; [None] is [undefined]. *)
Definition nextInCycle {A : Type} (value : A -> string) (styles : list A) (current : A) :
    option A :=
  let currentIndex := indexOf (value current) (map value styles) in
  let i := Z.rem (currentIndex + 1) (Z.of_nat (length styles)) in
  if (i <? 0)%Z then None else styles !! Z.to_nat i.

(** [toggleClockStyle]: the array literal lists the nine styles in the
    order of the enum. *)
Definition toggleClockStyle (w : World) : World :=
  let styles :=
    [IOS_MODERN; IOS_CLEAN; ANALOG; NEON; ELEGANT; WORD;
     CHINESE_VERTICAL; CHINESE_INK; CHINESE_CLASSIC] in
  match nextInCycle ClockStyle_value styles (clockStyle (settings w)) with
  | Some nextStyle => setSettings (with_clockStyle nextStyle) w
  | None => w
  end.

(** [toggleCalendarStyle]. *)
Definition toggleCalendarStyle (w : World) : World :=
  let styles := [GRID; LIST; BIG_CARD; STRIP; DOTS; RED_FESTIVE; INK_SCROLL] in
  match nextInCycle CalendarStyle_value styles (calendarStyle (settings w)) with
  | Some nextStyle => setSettings (with_calendarStyle nextStyle) w
  | None => w
  end.

(** ** The digital clock (src/components/DigitalClock.tsx) *)

(** [n.toString()] for an integer. *)
Definition toString (n : Z) : string := pretty n.

Fixpoint zeros (k : nat) : string :=
  match k with
  | O => ""
  | S k' => String "0" (zeros k')
  end.

(** [s.padStart(2, '0')]. *)
Definition padStart2 (s : string) : string := zeros (2 - String.length s) +:+ s.

(** [h % 12 || 12]: [%] is the remainder that takes the sign of [h]. *)
Definition civilianHour (h : Z) : Z :=
  let r := Z.rem h 12 in
  if (r =? 0)%Z then 12%Z else r.

Definition formatHour (is24 : bool) (h : Z) : string :=
  if is24 then padStart2 (toString h)
  else padStart2 (toString (civilianHour h)).

Definition formatMinSec (n : Z) : string := padStart2 (toString n).

Definition ampm (hours : Z) : string :=
  if (hours >=? 12)%Z then "下午" else "上午".

(** The digit table of [toChineseNum]; an index outside it reads
    [undefined]. *)
Definition chineseDigits : list string :=
  ["零"; "一"; "二"; "三"; "四"; "五"; "六"; "七"; "八"; "九"].

Definition chineseDigit (i : Z) : option string :=
  if (i <? 0)%Z then None else chineseDigits !! Z.to_nat i.

(** What string concatenation makes of a table entry. *)
Definition orUndefined (o : option string) : string := default "undefined" o.

(** [toChineseNum(n, isHour)]; [None] is [undefined].  [Math.floor(n / 10)]
    is the floored quotient. *)
Definition toChineseNum (n : Z) (isHour : bool) : option string :=
  if isHour && (n =? 2)%Z then Some "两"
  else if (n <=? 9)%Z then chineseDigit n
  else
    let units :=
      if (Z.rem n 10 =? 0)%Z then "" else orUndefined (chineseDigit (Z.rem n 10)) in
    if (n <? 20)%Z then Some ("十" +:+ units)
    else Some (orUndefined (chineseDigit (n / 10)) +:+ "十" +:+ units).

Definition earthlyBranches : list string :=
  ["子"; "丑"; "寅"; "卯"; "辰"; "巳"; "午"; "未"; "申"; "酉"; "戌"; "亥"].

(** [Math.floor(((hours + 1) % 24) / 2)]. *)
Definition shichenIndex (hours : Z) : Z := (Z.rem (hours + 1) 24 / 2)%Z.

(** [getShichen(hours)]; [None] is [undefined]. *)
Definition getShichen (hours : Z) : option string :=
  let index := shichenIndex hours in
  if (index <? 0)%Z then None else earthlyBranches !! Z.to_nat index.

(** ** AI background generation ([generateAiBackground], in the same file) *)

(** A part of the reply: [inlineData] with its [mimeType] and [data],
    either of which may be missing. *)
Record InlineData := mkInlineData {
  mimeType : option string;
  data : option string
}.

Record Part := mkPart { inlineData : option InlineData }.

Inductive AiError :=
| ApiKeyMissing
| RequestFailed
| NoImageData.

(** What a call leaves behind: the request text it sent, if it sent one,
    the settled promise and the console output. *)
Record AiCall := mkAiCall {
  ai_request : option string;
  ai_result : string + AiError;
  ai_console : list Event
}.

(** [part.inlineData && part.inlineData.data], with the data URL built
    from that part. *)
Definition imageOfPart (part : Part) : option string :=
  match inlineData part with
  | Some d =>
      match data d with
      | Some bytes =>
          if String.eqb bytes "" then None
          else Some ("data:" +:+ orUndefined (mimeType d) +:+ ";base64," +:+ bytes)
      | None => None
      end
  | None => None
  end.

(** The [for] loop over the parts: the first part that carries an image. *)
Fixpoint firstImage (parts : list Part) : option string :=
  match parts with
  | [] => None
  | part :: rest =>
      match imageOfPart part with
      | Some url => Some url
      | None => firstImage rest
      end
  end.

(** [generateAiBackground(prompt, apiKey)].  [reply] is what
    [ai.models.generateContent] gives: [None] when it rejects, otherwise
    [response.candidates?.[0]?.content?.parts]. *)
Definition generateAiBackground (prompt apiKey : string)
    (reply : option (option (list Part))) : AiCall :=
  if String.eqb apiKey "" then mkAiCall None (inr ApiKeyMissing) []
  else
    let request :=
      "Generate a high-quality, abstract, minimalist wallpaper suitable for a clock app background. Style: "
      +:+ prompt +:+ ". No text, no clocks, just atmospheric art." in
    let logged := [EvConsoleError "Gemini Image Generation Error:"] in
    match reply with
    | None => mkAiCall (Some request) (inr RequestFailed) logged
    | Some parts =>
        match firstImage (default [] parts) with
        | Some url => mkAiCall (Some request) (inl url) []
        | None => mkAiCall (Some request) (inr NoImageData) logged
        end
    end.

(** The cache-busting URL [handleFetchBg] asks for. *)
Definition cacheBusted (url entropy : string) : string :=
  url +:+ (if includes url "?" then "&" else "?") +:+ "t=" +:+ entropy.

(** How many times [url] has been handed out. *)
Definition isCreateOf (url : string) (e : Event) : bool :=
  match e with
  | EvCreateObjectURL u _ => String.eqb u url
  | _ => false
  end.

Definition creations (url : string) (evs : list Event) : nat :=
  length (List.filter (isCreateOf url) evs).

(** The character of a decimal digit. *)
Definition digitChar (d : Z) : ascii := ascii_of_nat (48 + Z.to_nat d).

(** The readings of two numbers agree. *)
Definition sameReading (isHour : bool) (n m : Z) : bool :=
  bool_decide (toChineseNum n isHour = toChineseNum m isHour).


(** ** Effects that run again after a commit

    After a commit that takes the component from [w0] to [w1] React runs
    again the effects whose dependency array has a changed entry (strings
    and booleans are compared by value).  The mount effect
    [restoreBackground] depends on [settings.enableDayNightMode] alone.
    The day/night effect depends on the mode flag, the two slots,
    [isDayTime], the two layers and [triggerBgTransition], which is
    renewed with [bgImage]; [hours] is [time.hours], which these commits
    do not change.  Both run as effects of the new render, so they read
    [w1]; the save effect is part of [setSettings].  At most one of the
    two does anything: restoration returns at once when the mode is on,
    the day/night effect when it is off. *)
Definition restoreDepsChanged (w0 w1 : World) : bool :=
  negb (Bool.eqb (enableDayNightMode (settings w0)) (enableDayNightMode (settings w1))).

Definition dayNightDepsChanged (w0 w1 : World) : bool :=
  negb (Bool.eqb (enableDayNightMode (settings w0)) (enableDayNightMode (settings w1)))
  || negb (String.eqb (dayBgUrl (settings w0)) (dayBgUrl (settings w1)))
  || negb (String.eqb (nightBgUrl (settings w0)) (nightBgUrl (settings w1)))
  || negb (String.eqb (bgImage w0) (bgImage w1))
  || negb (bool_decide (nextBgImage w0 = nextBgImage w1)).

Definition rerunEffects (p : Preload) (hours : Z) (w0 w1 : World) : World :=
  let w2 := if restoreDepsChanged w0 w1 then restoreBackground p w1 else w1 in
  if dayNightDepsChanged w0 w1 then dayNightEffect p hours w2 else w2.
(** * Vocabulary of the properties *)

(** What the preload step writes to the console. *)
Definition preloadLog (ok : bool) (type : Kind) : list Event :=
  match type with
  | image =>
      if ok then []
      else [EvConsoleWarn "Image preload failed, attempting to show anyway."]
  | video => []
  end.

(** The world once a transition started from rest has run its course. *)
Definition settled (ok : bool) (newSource : string) (type : Kind) (lat : N)
    (w : World) : World :=
  mkWorld newSource type None type false (settings w) (now w + lat + 1600)%N []
    (db w) (dbUp w) (objectURLs w) (trace w ++ preloadLog ok type).




Definition isDbEvent (e : Event) : bool :=
  match e with
  | EvDbPut _ _ | EvDbGet _ => true
  | _ => false
  end.

(** The store accesses recorded in a trace. *)
Definition dbAccesses (evs : list Event) : list Event := List.filter isDbEvent evs.

Definition isIngestion (a : Action) : bool :=
  match a with
  | ActImageFile _ _ _ _ | ActVideoFile _ _ _ | ActDayNightUpload _ _ _
  | ActFetchBg _ _ _ _ _ => true
  | _ => false
  end.

Definition isRevokeOf (url : string) (e : Event) : bool :=
  match e with
  | EvRevokeObjectURL u => String.eqb u url
  | _ => false
  end.

(** How many times [url] has been revoked. *)
Definition releases (url : string) (evs : list Event) : nat :=
  length (List.filter (isRevokeOf url) evs).

Definition isLog (e : Event) : bool :=
  match e with
  | EvConsoleWarn _ | EvConsoleError _ => true
  | _ => false
  end.

(** The console output recorded in a trace. *)
Definition consoleLog (evs : list Event) : list Event := List.filter isLog evs.

(** The five properties the migration fills in, with their defaults. *)
Definition migrated : list (string * json) :=
  [("clockScale", JNum 1%Q); ("calendarScale", JNum (1 # 2)%Q);
   ("enableDayNightMode", JBool false); ("dayBgUrl", JStr DEFAULT_BG);
   ("nightBgUrl", JStr DEFAULT_NIGHT_BG)].

(** ** Sample inputs *)

Definition sampleEncoder (c : Canvas) (mime : string) (q : Q) : string :=
  "data:" +:+ mime +:+ ";base64,AAAA".

Definition sampleParse (text : string) : option json :=
  if String.eqb text "{}" then Some (JObj []) else None.

Definition photo : Blob :=
  mkBlob 1 "image/png" (Some (4000, 2000)%Z) "data:image/png;base64,AAAA".

Definition brokenPhoto : Blob :=
  mkBlob 2 "image/png" None "data:image/png;base64,0000".

Definition clip : Blob :=
  mkBlob 3 "video/mp4" None "data:video/mp4;base64,AAAA".

Definition quick : Preload := mkPreload true 40.

(** A freshly mounted application over an empty store. *)
Definition firstRun : World := mount defaultSettings ∅ true 0.

Definition dayNightSettings : AppSettings :=
  mkSettings true false IOS_MODERN GRID true (1 # 5)%Q DEFAULT_BING_API
    1%Q (1 # 2)%Q true DEFAULT_BG DEFAULT_NIGHT_BG.

Definition dayNightRun : World := mount dayNightSettings ∅ true 0.

(** A transition to a new picture, while preloading and while fading. *)
Definition preloadingWorld : World :=
  triggerBgTransition quick DEFAULT_BG "next.jpg" image firstRun.


(** A store holding an uploaded picture, as the image path leaves it. *)
Definition pictureStore : gmap string Asset :=
  <[KEY_BG_TYPE := AStr "image"]> (<[KEY_BG := AStr "data:image/jpeg;base64,AAAA"]> ∅).

(** Every object URL in the trace was handed out once, by the allocator,
    and has been revoked at most once, after it was handed out. *)
Definition urlDiscipline (w : World) : Prop :=
  forall u,
    releases u (trace w) <= creations u (trace w) /\
    creations u (trace w) <= 1 /\
    (0 < creations u (trace w) ->
     exists k, k < objectURLs w /\ u = "blob:" +:+ pretty k).

(** What [JSON.parse] gives that is not an object: assigning a property
    to it throws in a module, which is strict code. *)
Definition primitive (v : json) : bool :=
  match v with
  | JNull | JBool _ | JNum _ | JStr _ => true
  | JArr _ | JObj _ => false
  end.

(** The first run once its transition to the new picture has finished. *)
Definition afterSwap : World := runLoop 5 preloadingWorld.

(** * Properties *)

(** ** Day/night scheduler *)

Lemma isDayTime_spec (hours : Z) : isDayTime hours = true <-> (6 <= hours < 18)%Z.
Proof. unfold isDayTime. rewrite andb_true_iff, Z.leb_le, Z.ltb_lt. tauto. Qed.

(** C5: the selection depends on the hour and the two URLs only; hours in
    [6,18) select the day source, every other hour the night source, with
    6 and 17 on the day side and 18 and 5 on the night side. *)
Theorem desiredSource_by_hour (hours : Z) (dayUrl nightUrl : string) :
  ((6 <= hours < 18)%Z -> desiredSource hours dayUrl nightUrl = dayUrl) /\
  ((hours < 6 \/ 18 <= hours)%Z -> desiredSource hours dayUrl nightUrl = nightUrl) /\
  desiredSource 6 dayUrl nightUrl = dayUrl /\
  desiredSource 17 dayUrl nightUrl = dayUrl /\
  desiredSource 18 dayUrl nightUrl = nightUrl /\
  desiredSource 5 dayUrl nightUrl = nightUrl.
Proof.
  unfold desiredSource. split; [|split; [|done]].
  - intros H. apply isDayTime_spec in H. by rewrite H.
  - intros H. destruct (isDayTime hours) eqn:E; [|done].
    apply isDayTime_spec in E. lia.
Qed.

(** The swap callback, without the empty revocation branch. *)
Lemma runCallback_swap (newSource : string) (type : Kind) (bgImage_cl : string) (w : World) :
  runCallback (CbSwap newSource type bgImage_cl) w =
  setTimeout CbClearNext 100%N
    (setIsBgTransitioning false (setBgType type (setBgImage newSource w))).
Proof. unfold runCallback. by destruct (_ && _). Qed.

Lemma dayNightRequest_target (hours : Z) (w : World) (src : string) (ty : Kind) :
  dayNightRequest hours w = Some (src, ty) ->
  src = desiredSource hours (dayBgUrl (settings w)) (nightBgUrl (settings w)) /\
  src <> "" /\ src <> bgImage w /\ nextBgImage w <> Some src.
Proof.
  unfold dayNightRequest. destruct (enableDayNightMode _); [|done].
  set (t := desiredSource _ _ _).
  destruct (String.eqb t "") eqn:E1; [done|].
  destruct (String.eqb (bgImage w) t) eqn:E2; [done|].
  apply String.eqb_neq in E1, E2. simpl.
  destruct (nextBgImage w) as [n|] eqn:E3.
  - destruct (String.eqb n t) eqn:E4; [done|]. apply String.eqb_neq in E4.
    simpl. intros [= <- _]. repeat split; congruence.
  - intros [= <- _]. repeat split; congruence.
Qed.

Lemma dayNightRequest_suppressed (hours : Z) (w : World) :
  let target := desiredSource hours (dayBgUrl (settings w)) (nightBgUrl (settings w)) in
  target = bgImage w \/ nextBgImage w = Some target ->
  dayNightRequest hours w = None.
Proof.
  intros target H. destruct (dayNightRequest hours w) as [[src ty]|] eqn:E; [|done].
  apply dayNightRequest_target in E as (-> & _ & H1 & H2). fold target in H1, H2.
  destruct H; congruence.
Qed.

(** C6: the day/night effect asks for a transition only towards a source
    that is neither on screen nor in the top layer; when the desired
    source is already [bgImage] or [nextBgImage], evaluating the effect
    again changes nothing, in particular after the requested transition
    has filled the top layer and after it has swapped. *)
Theorem dayNight_requests_only_new_source (p : Preload) (hours : Z) (w : World) :
  let target := desiredSource hours (dayBgUrl (settings w)) (nightBgUrl (settings w)) in
  (forall src ty, dayNightRequest hours w = Some (src, ty) ->
     src = target /\ src <> bgImage w /\ nextBgImage w <> Some src) /\
  (target = bgImage w \/ nextBgImage w = Some target ->
     dayNightRequest hours w = None /\ dayNightEffect p hours w = w) /\
  (forall src ty ok,
     dayNightRequest hours w = Some (src, ty) ->
     let w1 := runCallback (CbPreloadDone ok src ty (bgImage w)) w in
     let w2 := runCallback (CbSwap src ty (bgImage w)) w1 in
     nextBgImage w1 = Some src /\ dayNightEffect p hours w1 = w1 /\
     bgImage w2 = src /\ dayNightEffect p hours w2 = w2).
Proof.
  intros target. split; [|split].
  - intros src ty H. apply dayNightRequest_target in H as (? & _ & ? & ?). done.
  - intros H. pose proof (dayNightRequest_suppressed hours w H) as E.
    split; [done|]. unfold dayNightEffect. by rewrite E.
  - intros src ty ok H w1 w2.
    apply dayNightRequest_target in H as (Hs & _ & _ & _). fold target in Hs.
    assert (E1 : dayNightRequest hours w1 = None).
    { apply dayNightRequest_suppressed. right. subst w1 src.
      destruct ty, ok; reflexivity. }
    assert (E2 : dayNightRequest hours w2 = None).
    { apply dayNightRequest_suppressed. left. subst w2 w1 src.
      rewrite runCallback_swap. destruct ty, ok; reflexivity. }
    unfold dayNightEffect. rewrite E1, E2.
    repeat split; subst w2 w1; rewrite ?runCallback_swap;
      destruct ty, ok; reflexivity.
Qed.

(** ** Asset compressor *)

(** [roundDiv a b] is within half a unit of [a / b]. *)
Lemma roundDiv_nearest (a b : Z) :
  (0 < b)%Z -> (2 * Z.abs (a - roundDiv a b * b) <= b)%Z.
Proof.
  intros Hb. unfold roundDiv.
  pose proof (Z.div_mod (2 * a + b) (2 * b) ltac:(lia)) as E.
  pose proof (Z.mod_pos_bound (2 * a + b) (2 * b) ltac:(lia)) as B.
  lia.
Qed.

Lemma roundDiv_le (a b m : Z) :
  (0 < b)%Z -> (0 <= m)%Z -> (a <= m * b)%Z -> (roundDiv a b <= m)%Z.
Proof.
  intros Hb Hm H. unfold roundDiv.
  apply Z.lt_succ_r, Z.div_lt_upper_bound; lia.
Qed.

Lemma roundDiv_nonneg (a b : Z) : (0 <= a)%Z -> (0 < b)%Z -> (0 <= roundDiv a b)%Z.
Proof. intros Ha Hb. unfold roundDiv. apply Z.div_pos; lia. Qed.

(** The size of the canvas: the longer side is clamped to [maxDim] and
    the other follows to the nearest pixel. *)
Lemma targetSize_spec (width height : Z) :
  (0 < width)%Z -> (0 < height)%Z ->
  let '(cw, ch) := targetSize width height in
  ((width > maxDim \/ height > maxDim)%Z ->
     Z.max cw ch = maxDim /\ (0 <= Z.min cw ch)%Z /\
     (2 * Z.abs (cw * height - ch * width) <= Z.max width height)%Z) /\
  ((width <= maxDim /\ height <= maxDim)%Z -> (cw, ch) = (width, height)).
Proof.
  intros Hw Hh. unfold targetSize, maxDim.
  destruct (width >? 1920)%Z eqn:E1; destruct (height >? 1920)%Z eqn:E2; simpl;
    try (destruct (width >? height)%Z eqn:E3);
    rewrite ?Z.gtb_ltb, ?Z.ltb_lt, ?Z.ltb_ge in *;
    (split; [intros ? | intros ?; try lia; try done]);
    try match goal with
        | |- context [roundDiv ?a ?b] =>
            pose proof (roundDiv_nearest a b ltac:(lia));
            pose proof (roundDiv_le a b 1920 ltac:(lia) ltac:(lia) ltac:(nia));
            pose proof (roundDiv_nonneg a b ltac:(nia) ltac:(lia))
        end; lia.
Qed.

Lemma compressImage_result (source : Asset) (decoded : option (Z * Z))
    (ctx2d : bool) (w : World) :
  fst (compressImage source decoded ctx2d w) =
  match decoded with
  | None => Rejected DecodeError
  | Some (width, height) =>
      if ctx2d then
        Resolved (toDataURL
          (mkCanvas (fst (targetSize width height)) (snd (targetSize width height)) source)
          "image/jpeg" JPEG_QUALITY)
      else Rejected CanvasContextFailed
  end.
Proof.
  unfold compressImage.
  destruct source, decoded as [[width height]|]; simpl;
    try destruct (targetSize width height); by destruct ctx2d.
Qed.

(** C7 (amended): for every decodable image, if a side exceeds 1920 the
    canvas is scaled so that its longer side is exactly 1920 and the
    aspect ratio is kept to the nearest pixel (4000x2000 gives
    1920x960), otherwise the size is unchanged; whenever a 2D context is
    obtained the result is the canvas encoded as image/jpeg at quality
    0.7.  The promise is rejected on a decode error and also when no 2D
    context is obtained, and in no other case. *)
Theorem compressImage_bound_and_encoding (source : Asset) (width height : Z) (w : World) :
  (0 < width)%Z -> (0 < height)%Z ->
  let cw := fst (targetSize width height) in
  let ch := snd (targetSize width height) in
  ((width > 1920 \/ height > 1920)%Z ->
     Z.max cw ch = 1920%Z /\
     (2 * Z.abs (cw * height - ch * width) <= Z.max width height)%Z) /\
  ((width <= 1920 /\ height <= 1920)%Z -> cw = width /\ ch = height) /\
  targetSize 4000 2000 = (1920, 960)%Z /\
  fst (compressImage source (Some (width, height)) true w) =
    Resolved (toDataURL (mkCanvas cw ch source) "image/jpeg" (7 # 10)%Q) /\
  fst (compressImage source (Some (width, height)) false w) =
    Rejected CanvasContextFailed /\
  (forall decoded ctx2d e,
     fst (compressImage source decoded ctx2d w) = Rejected e ->
     (decoded = None /\ e = DecodeError) \/
     (decoded <> None /\ ctx2d = false /\ e = CanvasContextFailed)).
Proof.
  intros Hw Hh cw ch.
  pose proof (targetSize_spec width height Hw Hh) as H.
  subst cw ch. destruct (targetSize width height) as [cw ch] eqn:E. simpl.
  destruct H as [H1 H2]. split; [|split; [|split; [|split; [|split]]]].
  - intros H. apply H1 in H. tauto.
  - intros H. apply H2 in H. split; congruence.
  - reflexivity.
  - by rewrite compressImage_result, E.
  - by rewrite compressImage_result.
  - intros decoded ctx2d e. rewrite compressImage_result.
    destruct decoded as [[a b]|]; [|intros [= <-]; by left].
    destruct ctx2d; [done|]. intros [= <-]. by right.
Qed.

(** ** One transition, from request to cleared top layer *)

Ltac clock :=
  repeat first
    [ rewrite (proj2 (N.leb_le _ _)) by lia
    | rewrite (proj2 (N.leb_gt _ _)) by lia
    | rewrite N.max_r by lia
    | rewrite N.max_l by lia ].

(** Unfold the state updates, and nothing else. *)
Ltac wsimpl :=
  cbv beta iota zeta delta
    [setBgImage setBgType setNextBgImage setNextBgType setIsBgTransitioning
     with_settings with_now with_timers with_db with_objectURLs emit
     consoleWarn consoleError setTimeout requestAnimationFrame FRAME
     bgImage bgType nextBgImage nextBgType isBgTransitioning settings now
     timers db dbUp objectURLs trace due cb earliest];
  cbn [app].

(** Evaluate the next [eventLoopStep] of the goal. *)
Ltac tick :=
  match goal with
  | |- context [eventLoopStep ?W] =>
      let E := fresh "E" in
      let W' := fresh "W" in
      evar (W' : World);
      assert (E : eventLoopStep W = Some W');
      [ unfold eventLoopStep; wsimpl; clock; wsimpl;
        rewrite ?runCallback_swap; unfold runCallback; wsimpl;
        subst W'; reflexivity
      | rewrite E; subst W'; cbv beta iota ]
  end.

(** Five callbacks (media event, two frames, swap, clear) complete a
    transition started when nothing else is pending. *)
Lemma runLoop_transition (ok : bool) (newSource : string) (type : Kind)
    (bgImage_cl : string) (lat : N) (w : World) :
  timers w = [] ->
  runLoop 5 (setTimeout (CbPreloadDone ok newSource type bgImage_cl) lat w)
  = settled ok newSource type lat w.
Proof.
  destruct w as [bg bt nbg nbt tr st nw tm store up urls evs]. simpl.
  intros ->. unfold runLoop, settled. wsimpl.
  destruct type, ok; cbn [preloadLog]; do 5 tick; rewrite ?app_nil_r; f_equal; lia.
Qed.

(** ** The top layer and the phases *)






(** What firing a pending callback does to the phases and the top layer. *)
Lemma fire_phases (n : nat) (at_time : N) (w : World) (t : Timer) :
  timers w !! n = Some t ->
  exists pre post,
    phases w = (pre ++ option_list (phaseOfCallback (cb t)) ++ post)%list /\
    match cb t with
    | CbPreloadDone _ newSource _ _ =>
        phases (fire n at_time w) = (pre ++ post ++ [Fading])%list /\
        nextBgImage (fire n at_time w) = Some newSource
    | CbFrame1 | CbFrame2 =>
        phases (fire n at_time w) = (pre ++ post)%list /\
        nextBgImage (fire n at_time w) = nextBgImage w
    | CbSwap _ _ _ =>
        phases (fire n at_time w) = (pre ++ post ++ [Finalizing])%list /\
        nextBgImage (fire n at_time w) = nextBgImage w
    | CbClearNext =>
        phases (fire n at_time w) = (pre ++ post)%list /\
        nextBgImage (fire n at_time w) = None
    end.
Proof.
  intros Ht.
  exists (omap (fun t => phaseOfCallback (cb t)) (take n (timers w))),
         (omap (fun t => phaseOfCallback (cb t)) (drop (S n) (timers w))).
  split.
  - unfold phases. rewrite <- (take_drop_middle _ _ _ Ht) at 1.
    rewrite omap_app. simpl. by destruct (phaseOfCallback (cb t)).
  - unfold fire. rewrite Ht, delete_take_drop.
    destruct (cb t) as [ok src ty bg| | |src ty bg|];
      rewrite ?runCallback_swap; unfold phases.
    + destruct ty, ok; simpl; rewrite !omap_app, <- ?app_assoc; simpl;
        by rewrite ?app_nil_r.
    + simpl. rewrite !omap_app. simpl. by rewrite app_nil_r.
    + simpl. by rewrite !omap_app.
    + simpl. by rewrite !omap_app, <- ?app_assoc.
    + simpl. by rewrite !omap_app.
Qed.









Lemma earliest_None (l : list Timer) : earliest l = None -> l = [].
Proof.
  destruct l as [|a l]; [done|]. simpl.
  destruct (earliest l) as [[m r']|]; [|done]. by destruct (due a <=? due m)%N.
Qed.

(** The event loop only ever fires a pending callback. *)
Lemma earliest_lookup (l : list Timer) (t : Timer) (rest : list Timer) :
  earliest l = Some (t, rest) -> exists n, l !! n = Some t /\ rest = delete n l.
Proof.
  revert t rest. induction l as [|a l IH]; intros t rest; simpl; [done|].
  destruct (earliest l) as [[m r']|] eqn:E.
  - destruct (due a <=? due m)%N.
    + intros [= <- <-]. by exists 0.
    + intros [= <- <-]. destruct (IH m r' eq_refl) as (n & Hn & ->).
      by exists (S n).
  - apply earliest_None in E as ->. intros [= <- <-]. by exists 0.
Qed.

Lemma eventLoopStep_step (w w' : World) : eventLoopStep w = Some w' -> step w w'.
Proof.
  unfold eventLoopStep. destruct (earliest (timers w)) as [[t rest]|] eqn:E; [|done].
  intros [= <-]. apply earliest_lookup in E as (n & Hn & ->).
  exists (ActFire n (N.max (now w) (due t))). simpl. unfold fire. by rewrite Hn.
Qed.

(** Firing a callback never counts as starting a transition. *)
Lemma fire_serialStep (n : nat) (at_time : N) (w : World) :
  serialStep w (fire n at_time w).
Proof.
  split; [by exists (ActFire n at_time)|]. right.
  intros H. apply (f_equal length) in H. rewrite length_app in H. simpl in H.
  destruct (timers w !! n) as [t|] eqn:Ht.
  - destruct (fire_phases n at_time w t Ht) as (pre & post & Hw & Hf).
    rewrite Hw in H. rewrite !length_app in H.
    destruct (cb t); destruct Hf as [Hf _]; rewrite Hf in H;
      rewrite ?length_app in H; simpl in H; lia.
  - unfold fire in H. rewrite Ht in H. lia.
Qed.

Lemma runLoop_reachableSerially (fuel : nat) (w : World) :
  reachableSerially w -> reachableSerially (runLoop fuel w).
Proof.
  revert w. induction fuel as [|fuel IH]; intros w Hw; simpl; [done|].
  destruct (eventLoopStep w) as [w'|] eqn:E; [|done].
  apply IH. destruct Hw as (s & store & up & urls & Hw).
  exists s, store, up, urls. eapply rtc_r; [done|].
  unfold eventLoopStep in E.
  destruct (earliest (timers w)) as [[t rest]|] eqn:E'; [|done].
  injection E as <-. apply earliest_lookup in E' as (n & Hn & ->).
  pose proof (fire_serialStep n (N.max (now w) (due t)) w) as H.
  unfold fire in H. by rewrite Hn in H.
Qed.

Lemma reachableSerially_reachable (w : World) : reachableSerially w -> reachable w.
Proof.
  intros (s & store & up & urls & H). exists s, store, up, urls.
  eapply rtc_subrel; [|done]. by intros x y [? _].
Qed.


(** ** Startup restoration *)

Lemma kindOfSaved_tag (k : Kind) : kindOfSaved (Some (AStr (Kind_tag k))) = k.
Proof. by destruct k. Qed.

Lemma runLoop_idle (fuel : nat) (w : World) : timers w = [] -> runLoop fuel w = w.
Proof. intros H. destruct fuel; [done|]. simpl. unfold eventLoopStep. by rewrite H. Qed.

(** A transition requested from rest runs to completion, or is refused
    by the guard. *)
Lemma runLoop_trigger (p : Preload) (bgImage_cl newSource : string) (type : Kind)
    (w : World) :
  timers w = [] ->
  runLoop 5 (triggerBgTransition p bgImage_cl newSource type w) =
  if String.eqb newSource bgImage_cl then w
  else settled (loaded p) newSource type (latency p) w.
Proof.
  intros H. unfold triggerBgTransition. destruct (String.eqb _ _).
  - by apply runLoop_idle.
  - by apply runLoop_transition.
Qed.

(** C3 (amended): let a background be stored under both keys and let a
    fresh instance with day/night mode off, whose store opens, run the
    restoration to completion.  If the stored data is a non-empty string
    (kind image, as the image and fetch paths store it; or any kind when
    the string is not the initial background), [bgImage] and [bgType]
    are exactly the stored pair.  If the stored data is a Blob (the video
    path), [bgType] is the stored kind and [bgImage] is an object URL
    newly created for that Blob, not a stored string. *)
Theorem restore_round_trip (p : Preload) (s : AppSettings)
    (store : gmap string Asset) (urls : nat) (data : Asset) (k : Kind) :
  enableDayNightMode s = false ->
  store !! KEY_BG = Some data ->
  store !! KEY_BG_TYPE = Some (AStr (Kind_tag k)) ->
  let w := runLoop 5 (restoreBackground p (mount s store true urls)) in
  timers w = [] /\ nextBgImage w = None /\
  match data with
  | AStr src =>
      src <> "" -> k = image \/ src <> DEFAULT_BG ->
      bgImage w = src /\ bgType w = k
  | ABlob b =>
      bgType w = k /\ bgImage w = "blob:" +:+ pretty urls /\
      EvCreateObjectURL (bgImage w) b ∈ trace w
  end.
Proof.
  intros Hdn Hdata Htype w. subst w. unfold restoreBackground, getAssetFromDB.
  cbn [mount settings dbUp db emit]. rewrite Hdn, Hdata, Htype, kindOfSaved_tag.
  destruct data as [src|b].
  - destruct (String.eqb src "") eqn:E0.
    { rewrite runLoop_idle by done. apply String.eqb_eq in E0. done. }
    rewrite runLoop_trigger by done.
    change (bgImage (mount s store true urls)) with DEFAULT_BG.
    destruct (String.eqb src DEFAULT_BG) eqn:E1.
    + apply String.eqb_eq in E1. subst src. simpl.
      split; [done|]. split; [done|]. intros _ [->|Hne]; done.
    + simpl. done.
  - unfold createObjectURL. cbn [objectURLs emit with_objectURLs]. simpl String.eqb.
    cbv iota. rewrite runLoop_trigger by done.
    change (bgImage (mount s store true urls)) with DEFAULT_BG. simpl String.eqb.
    cbv iota. unfold settled. cbn [timers nextBgImage bgType bgImage trace].
    split; [done|]. split; [done|]. split; [done|]. split; [done|].
    cbn [mount emit with_objectURLs trace app].
    rewrite !elem_of_cons. right; right; by left.
Qed.

(** What the upload handlers leave in the store when day/night mode is
    off: the pair that [restoreBackground] reads back. *)
Lemma handleImageFileChange_persists (file : Blob) (hour : Z) (p : Preload)
    (w : World) (width height : Z) :
  enableDayNightMode (settings w) = false -> dbUp w = true ->
  blob_image file = Some (width, height) ->
  let w' := handleImageFileChange (Some file) true hour p w in
  exists compressedUrl,
    fst (compressImage (ABlob file) (blob_image file) true w) = Resolved compressedUrl /\
    db w' !! KEY_BG = Some (AStr compressedUrl) /\
    db w' !! KEY_BG_TYPE = Some (AStr (Kind_tag image)).
Proof.
  intros Hdn Hup Himg. unfold handleImageFileChange, compressImage, createObjectURL.
  rewrite Himg, Hdn. destruct (targetSize width height) as [cw ch]. simpl.
  eexists. split; [done|].
  unfold saveAssetToDB, triggerBgTransition. repeat (simpl; rewrite ?Hup).
  destruct (String.eqb _ _); simpl; by simplify_map_eq.
Qed.

Lemma handleVideoFileChange_persists (file : Blob) (hour : Z) (p : Preload) (w : World) :
  enableDayNightMode (settings w) = false -> dbUp w = true ->
  let w' := handleVideoFileChange (Some file) hour p w in
  db w' !! KEY_BG = Some (ABlob file) /\
  db w' !! KEY_BG_TYPE = Some (AStr (Kind_tag video)).
Proof.
  intros Hdn Hup. unfold handleVideoFileChange, createObjectURL.
  rewrite Hdn. cbn [negb fst snd]. unfold saveAssetToDB, triggerBgTransition.
  destruct (String.eqb _ _); repeat (simpl; rewrite ?Hup); by simplify_map_eq.
Qed.

(** ** Ingestion in day/night mode *)

Lemma dbAccesses_app (l1 l2 : list Event) :
  dbAccesses (l1 ++ l2) = (dbAccesses l1 ++ dbAccesses l2)%list.
Proof. unfold dbAccesses. induction l1 as [|e l1 IH]; simpl; [done|].
  destruct (isDbEvent e); simpl; by rewrite IH. Qed.

(** In day/night mode no ingestion path touches the store. *)
Lemma dayNight_ingestion_leaves_store (a : Action) (w : World) :
  enableDayNightMode (settings w) = true -> isIngestion a = true ->
  db (perform a w) = db w /\
  dbAccesses (trace (perform a w)) = dbAccesses (trace w).
Proof.
  intros Hdn Ha. destruct a; try done; simpl.
  all: unfold handleImageFileChange, handleVideoFileChange, handleDayNightUpload,
         handleFetchBg, compressImage, createObjectURL, revokeObjectURL,
         setSettings, consoleWarn, consoleError, triggerBgTransition;
       rewrite ?Hdn.
  all: repeat case_match; simplify_eq; simpl; rewrite ?Hdn in *; simplify_eq; simpl;
       rewrite ?dbAccesses_app; simpl; rewrite ?app_nil_r; done.
Qed.

(** On success every ingestion path of day/night mode writes its result
    to the slot of the current half of the day. *)
Lemma dayNight_upload_fills_slot (file : Blob) (hour : Z) (p : Preload) (w : World) :
  enableDayNightMode (settings w) = true ->
  settings (handleVideoFileChange (Some file) hour p w) =
    with_slot (isDayTime hour) ("blob:" +:+ pretty (objectURLs w)) (settings w) /\
  (forall url,
     fst (compressImage (ABlob file) (blob_image file) true w) = Resolved url ->
     settings (handleImageFileChange (Some file) true hour p w) =
       with_slot (isDayTime hour) url (settings w)).
Proof.
  intros Hdn. split.
  - unfold handleVideoFileChange, createObjectURL. by rewrite Hdn.
  - intros url. unfold handleImageFileChange, compressImage, createObjectURL.
    destruct (blob_image file) as [[width height]|]; [|done].
    destruct (targetSize width height). simpl. rewrite Hdn. by intros [= <-].
Qed.

(** C4, at the input where the code departs from it: in day/night mode an
    uploaded image that fails to decode is not written to [dayBgUrl] or
    [nightBgUrl]; the settings stay as they were and the reader's data
    URL is sent straight to the transition engine (the store is left
    alone here too). *)
Theorem handleImageFileChange_dayNight_decode_failure (file : Blob) (ctx2d : bool)
    (hour : Z) (p : Preload) (w : World) :
  enableDayNightMode (settings w) = true ->
  blob_image file = None ->
  let w' := handleImageFileChange (Some file) ctx2d hour p w in
  settings w' = settings w /\ db w' = db w /\
  dbAccesses (trace w') = dbAccesses (trace w) /\
  (blob_dataURL file <> bgImage w ->
   timers w' =
     (timers w ++
      [mkTimer (now w + latency p)
         (CbPreloadDone (loaded p) (blob_dataURL file) image (bgImage w))])%list).
Proof.
  intros Hdn Himg w'.
  destruct (dayNight_ingestion_leaves_store (ActImageFile (Some file) ctx2d hour p) w Hdn eq_refl)
    as [Hdb Hacc].
  subst w'. split; [|split; [done|split; [done|]]].
  - unfold handleImageFileChange, compressImage, createObjectURL, triggerBgTransition.
    rewrite Himg. simpl. by destruct (String.eqb _ _).
  - intros Hne. apply String.eqb_neq in Hne.
    unfold handleImageFileChange, compressImage, createObjectURL, triggerBgTransition.
    rewrite Himg. simpl. by rewrite Hne.
Qed.

(** ** Object URLs over successive transitions *)

Lemma releases_app (url : string) (l1 l2 : list Event) :
  releases url (l1 ++ l2) = releases url l1 + releases url l2.
Proof. unfold releases. by rewrite List.filter_app, length_app. Qed.

(** No callback of the engine revokes anything. *)
Lemma runCallback_releases (url : string) (c : Callback) (w : World) :
  releases url (trace (runCallback c w)) = releases url (trace w).
Proof.
  destruct c as [ok src ty bg| | |src ty bg|]; rewrite ?runCallback_swap; try done.
  destruct ty, ok; simpl; rewrite ?releases_app; done.
Qed.

Lemma preloadLog_releases (url : string) (ok : bool) (type : Kind) :
  releases url (preloadLog ok type) = 0.
Proof. by destruct type, ok. Qed.

(** A video upload outside day/night mode, run until the transition has
    finalized. *)
Lemma handleVideoFileChange_settled (file : Blob) (hour : Z) (p : Preload) (w : World) :
  enableDayNightMode (settings w) = false -> dbUp w = true -> timers w = [] ->
  "blob:" +:+ pretty (objectURLs w) <> bgImage w ->
  let url := "blob:" +:+ pretty (objectURLs w) in
  runLoop 5 (handleVideoFileChange (Some file) hour p w) =
  mkWorld url video None video false (settings w) (now w + latency p + 1600)%N []
    (<[KEY_BG_TYPE := AStr "video"]> (<[KEY_BG := ABlob file]> (db w))) true
    (S (objectURLs w))
    (trace w ++ [EvCreateObjectURL url file; EvDbPut KEY_BG (ABlob file);
                 EvDbPut KEY_BG_TYPE (AStr "video")]).
Proof.
  intros Hdn Hup Ht Hne url. subst url. apply String.eqb_neq in Hne.
  unfold handleVideoFileChange, createObjectURL. rewrite Hdn. cbn [negb].
  rewrite runLoop_trigger.
  - rewrite Hne. unfold settled, saveAssetToDB.
    destruct w as [bg bt nbg nbt tr st nw tm store up urls evs].
    cbn in Hup, Ht |- *. subst up tm. cbn.
    by rewrite <- !app_assoc, app_nil_r.
  - unfold saveAssetToDB. destruct w. cbn in Hup, Ht |- *. by subst.
Qed.

(** C8, as the code behaves: after three video uploads, each run until
    its transition has finalized, the object URLs of the first two
    backgrounds are superseded and none of the three has been revoked. *)
Theorem three_transitions_release_nothing (a b c : Blob) (hour : Z) (p : Preload) :
  let w0 := mount defaultSettings ∅ true 0 in
  let wA := runLoop 5 (handleVideoFileChange (Some a) hour p w0) in
  let wB := runLoop 5 (handleVideoFileChange (Some b) hour p wA) in
  let wC := runLoop 5 (handleVideoFileChange (Some c) hour p wB) in
  bgImage wA = "blob:0" /\ bgImage wB = "blob:1" /\ bgImage wC = "blob:2" /\
  timers wC = [] /\ nextBgImage wC = None /\
  EvCreateObjectURL "blob:0" a ∈ trace wC /\
  EvCreateObjectURL "blob:1" b ∈ trace wC /\
  releases "blob:0" (trace wC) = 0 /\ releases "blob:1" (trace wC) = 0 /\
  releases "blob:2" (trace wC) = 0.
Proof.
  intros w0 wA wB wC.
  subst wC wB wA w0.
  rewrite (handleVideoFileChange_settled a) by done.
  rewrite (handleVideoFileChange_settled b) by done.
  rewrite (handleVideoFileChange_settled c) by done.
  cbn [bgImage timers nextBgImage trace objectURLs mount app].
  do 5 (split; [reflexivity|]).
  split; [apply list_elem_of_here|].
  split; [do 3 apply list_elem_of_further; apply list_elem_of_here|].
  split; [reflexivity|]. split; reflexivity.
Qed.

(** ** Preload failure *)

Lemma preloadLog_true (type : Kind) : preloadLog true type = [].
Proof. by destruct type. Qed.

(** A failed preload does not stop the transition: it ends with the new
    source on screen and the top layer cleared, as after a successful
    preload.  The image branch leaves a warning on the console. *)
Lemma preload_failure_proceeds (bgImage_cl newSource : string) (type : Kind)
    (lat : N) (w : World) :
  timers w = [] -> newSource <> bgImage_cl ->
  let failed :=
    runLoop 5 (triggerBgTransition (mkPreload false lat) bgImage_cl newSource type w) in
  let passed :=
    runLoop 5 (triggerBgTransition (mkPreload true lat) bgImage_cl newSource type w) in
  bgImage failed = newSource /\ bgType failed = type /\
  nextBgImage failed = None /\ timers failed = [] /\
  bgImage failed = bgImage passed /\ bgType failed = bgType passed /\
  nextBgImage failed = nextBgImage passed /\ timers failed = timers passed /\
  trace passed = trace w /\
  trace failed = (trace w ++ preloadLog false type)%list.
Proof.
  intros Ht Hne failed passed. subst failed passed.
  apply String.eqb_neq in Hne. rewrite !runLoop_trigger by done. rewrite Hne.
  unfold settled. cbn. rewrite preloadLog_true. by rewrite app_nil_r.
Qed.

(** C9, at the input where the code departs from it: a video whose
    preload fails is shown all the same (the transition finalizes with it
    on screen, exactly as after a successful preload), but nothing is
    written to the console; a failing image preload does leave its
    warning. *)
Theorem video_preload_failure_not_logged (bgImage_cl newSource : string)
    (lat : N) (w : World) :
  timers w = [] -> newSource <> bgImage_cl ->
  let failed :=
    runLoop 5 (triggerBgTransition (mkPreload false lat) bgImage_cl newSource video w) in
  let passed :=
    runLoop 5 (triggerBgTransition (mkPreload true lat) bgImage_cl newSource video w) in
  let failedImage :=
    runLoop 5 (triggerBgTransition (mkPreload false lat) bgImage_cl newSource image w) in
  failed = passed /\
  bgImage failed = newSource /\ bgType failed = video /\ timers failed = [] /\
  trace failed = trace w /\
  consoleLog (trace failed) = consoleLog (trace w) /\
  trace failedImage =
    (trace w ++ [EvConsoleWarn "Image preload failed, attempting to show anyway."])%list.
Proof.
  intros Ht Hne failed passed failedImage. subst failed passed failedImage.
  apply String.eqb_neq in Hne. rewrite !runLoop_trigger by done. rewrite Hne.
  unfold settled. cbn. by rewrite app_nil_r.
Qed.

(** ** Loading the settings *)

Lemma ClockStyle_of_value (c : ClockStyle) : ClockStyle_of_string (ClockStyle_value c) = Some c.
Proof. by destruct c. Qed.

Lemma CalendarStyle_of_value (c : CalendarStyle) :
  CalendarStyle_of_string (CalendarStyle_value c) = Some c.
Proof. by destruct c. Qed.

Lemma isClockStyle_spec (v : option json) :
  isClockStyle v = true <-> exists c, v = Some (JStr (ClockStyle_value c)).
Proof.
  unfold isClockStyle. split.
  - destruct v as [[| | |s| |]|]; try done. rewrite bool_decide_eq_true.
    intros [c Hc]. exists c. unfold ClockStyle_of_string in Hc.
    apply find_some in Hc as [_ Hc]. apply String.eqb_eq in Hc. by subst.
  - intros [c ->]. rewrite bool_decide_eq_true, ClockStyle_of_value. by eexists.
Qed.

Lemma fillDefault_lookup_eq (k : string) (d : json) (o : gmap string json) :
  fillDefault k d o !! k = Some (default d (o !! k)).
Proof.
  unfold fillDefault. destruct (o !! k) as [v|] eqn:E; [done|].
  by rewrite lookup_insert_eq.
Qed.

Lemma fillDefault_lookup_ne (k : string) (d : json) (o : gmap string json) (k' : string) :
  k <> k' -> fillDefault k d o !! k' = o !! k'.
Proof.
  intros Hne. unfold fillDefault. destruct (o !! k) as [v|] eqn:E; [done|].
  by rewrite lookup_insert_ne.
Qed.

Lemma checkClockStyle_lookup_ne (parsed : gmap string json) (k : string) :
  k <> "clockStyle" -> checkClockStyle parsed !! k = parsed !! k.
Proof.
  intros Hne. unfold checkClockStyle. destruct (isClockStyle _); [done|].
  by rewrite lookup_insert_ne.
Qed.

Lemma checkClockStyle_lookup_eq (parsed : gmap string json) :
  checkClockStyle parsed !! "clockStyle" =
  if isClockStyle (parsed !! "clockStyle") then parsed !! "clockStyle"
  else Some (JStr (ClockStyle_value IOS_MODERN)).
Proof.
  unfold checkClockStyle. destruct (isClockStyle _); [done|].
  by rewrite lookup_insert_eq.
Qed.

Lemma migrate_unfold (parsed : gmap string json) :
  migrate parsed =
  fillDefault "nightBgUrl" (JStr DEFAULT_NIGHT_BG)
    (fillDefault "dayBgUrl" (JStr DEFAULT_BG)
      (fillDefault "enableDayNightMode" (JBool false)
        (fillDefault "calendarScale" (JNum (1 # 2)%Q)
          (fillDefault "clockScale" (JNum 1%Q) (checkClockStyle parsed))))).
Proof. reflexivity. Qed.

Ltac skip_fill := rewrite fillDefault_lookup_ne by (try done; congruence).

(** Property by property, what the loader makes of a parsed object. *)
Lemma migrate_lookup (stored : gmap string json) :
  migrate stored !! "clockStyle" =
    (if isClockStyle (stored !! "clockStyle") then stored !! "clockStyle"
     else Some (JStr (ClockStyle_value IOS_MODERN))) /\
  Forall (fun kd => migrate stored !! kd.1 = Some (default kd.2 (stored !! kd.1)))
    migrated /\
  (forall k, k <> "clockStyle" -> k ∉ migrated.*1 -> migrate stored !! k = stored !! k).
Proof.
  rewrite migrate_unfold. unfold migrated. split; [|split].
  - do 5 skip_fill. apply checkClockStyle_lookup_eq.
  - repeat apply Forall_cons_2; [..|apply Forall_nil_2]; cbn [fst snd].
    + do 4 skip_fill. rewrite fillDefault_lookup_eq.
      by rewrite checkClockStyle_lookup_ne.
    + do 3 skip_fill. rewrite fillDefault_lookup_eq. skip_fill.
      by rewrite checkClockStyle_lookup_ne.
    + do 2 skip_fill. rewrite fillDefault_lookup_eq. do 2 skip_fill.
      by rewrite checkClockStyle_lookup_ne.
    + skip_fill. rewrite fillDefault_lookup_eq. do 3 skip_fill.
      by rewrite checkClockStyle_lookup_ne.
    + rewrite fillDefault_lookup_eq. do 4 skip_fill.
      by rewrite checkClockStyle_lookup_ne.
  - intros k Hk Hn. cbn in Hn. rewrite !not_elem_of_cons in Hn.
    destruct Hn as (? & ? & ? & ? & ? & _).
    do 5 skip_fill. by apply checkClockStyle_lookup_ne.
Qed.

(** Look a literal key up in a literal chain of insertions. *)
Ltac look :=
  repeat first
    [ rewrite lookup_insert_eq
    | rewrite lookup_insert_ne by done
    | rewrite lookup_empty ].

(** What the application itself saved comes back unchanged. *)
Lemma migrate_settingsObject (s : AppSettings) :
  migrate (settingsObject s) = settingsObject s.
Proof.
  assert (Hcs : isClockStyle (settingsObject s !! "clockStyle") = true).
  { apply isClockStyle_spec. exists (clockStyle s). unfold settingsObject. by look. }
  assert (Hfill : forall k d o, is_Some (o !! k) -> fillDefault k d o = o).
  { intros k d o [v Hv]. unfold fillDefault. by rewrite Hv. }
  rewrite migrate_unfold. unfold checkClockStyle. rewrite Hcs.
  rewrite !Hfill; [done|..]; unfold settingsObject; look; by eexists.
Qed.

Lemma asAppSettings_settingsObject (s : AppSettings) :
  asAppSettings (settingsObject s) = Some s.
Proof.
  unfold asAppSettings, getBool, getNum, getStr, settingsObject.
  look. cbn [mbind option_bind].
  rewrite ClockStyle_of_value, CalendarStyle_of_value. cbn [mbind option_bind].
  by destruct s.
Qed.

Lemma defaultObject_valid :
  fullyPopulated defaultObject /\ asAppSettings (props defaultObject) = Some defaultSettings.
Proof.
  split; [|apply asAppSettings_settingsObject].
  unfold fullyPopulated, defaultObject, settingsObject. cbn [props].
  repeat apply Forall_cons_2; [..|apply Forall_nil_2]; look; by eexists.
Qed.

Lemma migrate_always (stored : gmap string json) :
  isClockStyle (migrate stored !! "clockStyle") = true /\
  Forall (fun kd => is_Some (migrate stored !! kd.1)) migrated.
Proof.
  destruct (migrate_lookup stored) as (Hc & Hm & _). split.
  - rewrite Hc. destruct (isClockStyle (stored !! "clockStyle")) eqn:E; [done|].
    apply isClockStyle_spec. by exists IOS_MODERN.
  - eapply Forall_impl; [exact Hm|]. intros kd ->. by eexists.
Qed.

Lemma migrate_unmigrated (stored : gmap string json) :
  Forall (fun k => migrate stored !! k = stored !! k) unmigrated.
Proof.
  destruct (migrate_lookup stored) as (_ & _ & Ho). unfold unmigrated.
  repeat apply Forall_cons_2; [..|apply Forall_nil_2]; apply Ho; try done;
    cbn; rewrite !not_elem_of_cons; split_and!; try done; apply not_elem_of_nil.
Qed.

Lemma migrate_fullyPopulated (arr : option (list json)) (stored : gmap string json) :
  fullyPopulated (mkJsObject arr (migrate stored)) <->
  Forall (fun k => is_Some (stored !! k)) unmigrated.
Proof.
  destruct (migrate_always stored) as (Hc & Hm).
  pose proof (migrate_unmigrated stored) as Hu.
  apply isClockStyle_spec in Hc as [c Hc].
  unfold fullyPopulated, unmigrated, migrated in *. cbn [props].
  rewrite !Forall_cons in Hm. rewrite !Forall_cons in Hu. rewrite !Forall_cons.
  cbn [fst snd] in Hm.
  destruct Hm as (M1 & M2 & M3 & M4 & M5 & _).
  destruct Hu as (U1 & U2 & U3 & U4 & U5 & U6 & _).
  rewrite U1, U2, U3, U4, U5, U6, Hc.
  split.
  - intros (? & ? & _ & ? & ? & ? & ? & _). by split_and!.
  - intros (? & ? & ? & ? & ? & ? & _). by split_and!.
Qed.

(** C10 (amended): the loader always returns an object whose
    [clockStyle] is a member of the enum (the stored one when it is,
    IOS_MODERN otherwise) and in which clockScale, calendarScale,
    enableDayNightMode, dayBgUrl and nightBgUrl are present, the stored
    value when there is one and the documented default otherwise; the
    six other properties are returned as stored, so the result is fully
    populated exactly when the stored record has them, and a record the
    application saved comes back unchanged and valid.  When nothing is
    stored, when the stored text is empty or does not parse, and when it
    parses to null, a boolean, a number or a string, the complete
    default object is returned; a stored array is kept, with the
    migration applied to an object without named properties. *)
Theorem loadSettings_migrates (saved : option string) :
  let o := loadSettings saved in
  isClockStyle (props o !! "clockStyle") = true /\
  Forall (fun kd => is_Some (props o !! kd.1)) migrated /\
  (forall text l,
     saved = Some text -> text <> "" -> JSON_parse text = Some (JObj l) ->
     let stored := propsOf l in
     props o !! "clockStyle" =
       (if isClockStyle (stored !! "clockStyle") then stored !! "clockStyle"
        else Some (JStr (ClockStyle_value IOS_MODERN))) /\
     Forall (fun kd => props o !! kd.1 = Some (default kd.2 (stored !! kd.1))) migrated /\
     Forall (fun k => props o !! k = stored !! k) unmigrated /\
     (fullyPopulated o <-> Forall (fun k => is_Some (stored !! k)) unmigrated) /\
     (forall s, stored = settingsObject s ->
        o = mkJsObject None (settingsObject s) /\ validAppSettings o)) /\
  (saved = None \/ saved = Some "" \/
   (exists text, saved = Some text /\
      (JSON_parse text = None \/
       exists v, JSON_parse text = Some v /\ primitive v = true)) ->
     o = defaultObject) /\
  (forall text l,
     saved = Some text -> text <> "" -> JSON_parse text = Some (JArr l) ->
     elements o = Some l /\ props o = migrate ∅) /\
  fullyPopulated defaultObject /\
  asAppSettings (props defaultObject) = Some defaultSettings.
Proof.
  intros o. subst o.
  assert (Hdef : isClockStyle (props defaultObject !! "clockStyle") = true /\
                 Forall (fun kd => is_Some (props defaultObject !! kd.1)) migrated).
  { unfold defaultObject. cbn [props].
    rewrite <- (migrate_settingsObject defaultSettings). apply migrate_always. }
  split_and!.
  - unfold loadSettings. destruct saved as [text|]; [|apply Hdef].
    destruct (String.eqb text ""); [apply Hdef|].
    destruct (JSON_parse text) as [[| | | | |]|]; try apply Hdef; apply migrate_always.
  - unfold loadSettings. destruct saved as [text|]; [|apply Hdef].
    destruct (String.eqb text ""); [apply Hdef|].
    destruct (JSON_parse text) as [[| | | | |]|]; try apply Hdef; apply migrate_always.
  - intros text l -> Hne Hparse stored. unfold loadSettings.
    apply String.eqb_neq in Hne. rewrite Hne, Hparse. cbn [props]. fold stored.
    destruct (migrate_lookup stored) as (Hc & Hm & _).
    split_and!; [done|done|apply migrate_unmigrated|apply migrate_fullyPopulated|].
    intros s Hs. rewrite Hs, migrate_settingsObject. split; [done|].
    unfold validAppSettings. cbn [props]. rewrite asAppSettings_settingsObject.
    by eexists.
  - intros [->|[->|(text & -> & [Hparse|(v & Hparse & Hv)])]]; [done|done|..];
      unfold loadSettings; rewrite Hparse; destruct (String.eqb text ""); try done.
    by destruct v.
  - intros text l -> Hne Hparse. unfold loadSettings.
    apply String.eqb_neq in Hne. by rewrite Hne, Hparse.
  - apply defaultObject_valid.
  - apply defaultObject_valid.
Qed.

(** ** Transition guard *)

Lemma runLoop_first_callback (ok : bool) (newSource : string) (type : Kind)
    (bgImage_cl : string) (lat : N) (w : World) :
  timers w = [] ->
  let w1 := runLoop 1 (setTimeout (CbPreloadDone ok newSource type bgImage_cl) lat w) in
  nextBgImage w1 = Some newSource /\ phases w1 = [Fading].
Proof.
  destruct w as [bg bt nbg nbt tr st nw tm store up urls evs]. simpl.
  intros ->. unfold runLoop. wsimpl.
  destruct type, ok; tick; wsimpl; split; reflexivity.
Qed.

(** C1: the guard of [triggerBgTransition] compares the requested source
    with the [bgImage] its callback closed over.  Through the callback
    of the current render a request for the source on screen returns
    the world it was given.  Through a callback of an earlier render (a
    handler that awaited while a swap went by) the same request goes
    ahead: a preload is pending, and when it settles the top layer is
    filled with the source that is already on screen and a fade begins.
    The request itself writes no store in either case; the image upload
    writes both keys before it asks, so uploading the picture that is on
    screen leaves the layers alone and still costs two writes. *)
Theorem triggerBgTransition_guard_uses_captured_source (p : Preload)
    (bgImage_cl : string) (type : Kind) (w : World) :
  let w' := triggerBgTransition p bgImage_cl (bgImage w) type w in
  (bgImage_cl = bgImage w -> w' = w) /\
  (bgImage_cl <> bgImage w ->
     w' <> w /\
     timers w' =
       (timers w ++ [mkTimer (now w + latency p)
                       (CbPreloadDone (loaded p) (bgImage w) type bgImage_cl)])%list /\
     (timers w = [] ->
        nextBgImage (runLoop 1 w') = Some (bgImage w) /\
        phase (runLoop 1 w') = Fading)) /\
  db w' = db w /\ settings w' = settings w /\ trace w' = trace w /\
  (forall file width height hour,
     enableDayNightMode (settings w) = false -> dbUp w = true ->
     blob_image file = Some (width, height) ->
     toDataURL
       (mkCanvas (fst (targetSize width height)) (snd (targetSize width height))
                 (ABlob file))
       "image/jpeg" JPEG_QUALITY = bgImage w ->
     let u := handleImageFileChange (Some file) true hour p w in
     bgImage u = bgImage w /\ nextBgImage u = nextBgImage w /\ timers u = timers w /\
     dbAccesses (trace u) =
       (dbAccesses (trace w) ++
        [EvDbPut KEY_BG (AStr (bgImage w)); EvDbPut KEY_BG_TYPE (AStr "image")])%list).
Proof.
  intros w'. subst w'. unfold triggerBgTransition. split_and!.
  - intros ->. by rewrite String.eqb_refl.
  - intros Hne. assert (E : String.eqb (bgImage w) bgImage_cl = false).
    { apply String.eqb_neq. congruence. }
    rewrite E. split_and!.
    + intros H. apply (f_equal (fun x => length (timers x))) in H.
      unfold setTimeout in H. cbn [timers with_timers] in H.
      rewrite length_app in H. cbn [length] in H. lia.
    + done.
    + intros Ht.
      destruct (runLoop_first_callback (loaded p) (bgImage w) type bgImage_cl
                  (latency p) w Ht) as [H1 H2].
      split; [exact H1|]. unfold phase. by rewrite H2.
  - by destruct (String.eqb _ _).
  - by destruct (String.eqb _ _).
  - by destruct (String.eqb _ _).
  - intros file width height hour Hdn Hup Himg Hsame.
    unfold handleImageFileChange, compressImage, createObjectURL, revokeObjectURL.
    rewrite Himg, Hdn. destruct (targetSize width height) as [cw ch].
    cbn [negb fst snd] in *. rewrite Hsame.
    unfold triggerBgTransition. rewrite String.eqb_refl.
    unfold saveAssetToDB. cbn [dbUp emit with_db with_objectURLs]. rewrite Hup.
    cbn [dbUp emit with_db with_objectURLs]. rewrite Hup.
    cbn [bgImage nextBgImage timers trace emit with_db with_objectURLs].
    split_and!; try done.
    rewrite !dbAccesses_app. unfold dbAccesses at 2 3 4 5.
    cbn [List.filter isDbEvent]. by rewrite !app_nil_r, <- app_assoc.
Qed.

(** * Further properties *)

(** ** Video detection *)

Lemma toLower_app (a b : string) : toLower (a +:+ b) = toLower a +:+ toLower b.
Proof. induction a as [|c a IH]; simpl; [done|]. by rewrite IH. Qed.

Lemma length_append (a b : string) :
  String.length (a +:+ b) = String.length a + String.length b.
Proof. induction a as [|c a IH]; simpl; [done|]. by rewrite IH. Qed.

Lemma substring_all (b : string) : String.substring 0 (String.length b) b = b.
Proof. induction b as [|c b IH]; simpl; [done|]. by rewrite IH. Qed.

Lemma substring_append (a b : string) :
  String.substring (String.length a) (String.length b) (a +:+ b) = b.
Proof. induction a as [|c a IH]; simpl; [apply substring_all|done]. Qed.

Lemma endsWith_append (a b : string) : endsWith (a +:+ b) b = true.
Proof.
  unfold endsWith. rewrite length_append.
  replace (String.length a + String.length b - String.length b)
    with (String.length a) by lia.
  rewrite substring_append, String.eqb_refl, andb_true_r.
  apply Nat.leb_le. lia.
Qed.

Lemma append_nonempty (a b : string) : b <> "" -> String.eqb (a +:+ b) "" = false.
Proof.
  intros Hb. apply String.eqb_neq. destruct a; simpl; [done|discriminate].
Qed.

Lemma startsWith_append (a b : string) : startsWith (a +:+ b) a = true.
Proof.
  unfold startsWith. induction a as [|c a IH]; simpl; [by destruct b|].
  by destruct (ascii_dec c c).
Qed.

Lemma isVideoUrl_blob (u : string) : startsWith u "blob:" = true -> isVideoUrl u = true.
Proof.
  intros Hu. unfold isVideoUrl. rewrite Hu.
  destruct (String.eqb u "") eqn:E; [|by rewrite orb_true_r].
  apply String.eqb_eq in E. by subst.
Qed.

Lemma append_assoc (a b c : string) : (a +:+ b) +:+ c = a +:+ (b +:+ c).
Proof.
  induction a as [|x a IH]; [done|].
  change (String x ((a +:+ b) +:+ c) = String x (a +:+ b +:+ c)). by rewrite IH.
Qed.

(** X1: [isVideoUrl] takes a source for a video whenever it ends in
    .mp4, .webm or .ogg, in any mix of upper and lower case, and
    whenever it starts with [blob:], so every object URL counts as a
    video; the empty string never does. *)
Theorem isVideoUrl_extension_or_blob (s ext : string) :
  (toLower ext = ".mp4" \/ toLower ext = ".webm" \/ toLower ext = ".ogg" ->
     isVideoUrl (s +:+ ext) = true) /\
  (startsWith s "blob:" = true -> isVideoUrl s = true) /\
  (forall b w, isVideoUrl (fst (createObjectURL b w)) = true) /\
  isVideoUrl "" = false.
Proof.
  pose proof isVideoUrl_blob as Hblob.
  split; [|split; [|split; [|done]]].
  - intros Hext. unfold isVideoUrl, hasVideoExtension.
    assert (Hne : ext <> "") by (destruct Hext as [H|[H|H]]; by destruct ext).
    rewrite append_nonempty by done. rewrite toLower_app.
    destruct Hext as [ -> | [ -> | -> ] ]; rewrite endsWith_append;
      by rewrite ?orb_true_r.
  - apply Hblob.
  - intros b w. apply Hblob. apply startsWith_append.
Qed.

(** X2: a video uploaded in day/night mode lands in the slot of the
    current half of the day, and the scheduler, evaluated at that hour,
    asks for it as a video (unless it is already on screen or in the top
    layer). *)
Theorem dayNight_video_upload_is_scheduled (file : Blob) (hour : Z) (p : Preload)
    (w : World) :
  enableDayNightMode (settings w) = true ->
  let url := "blob:" +:+ pretty (objectURLs w) in
  bgImage w <> url -> nextBgImage w <> Some url ->
  dayNightRequest hour (handleVideoFileChange (Some file) hour p w) = Some (url, video).
Proof.
  intros Hdn url Hbg Hnext. subst url.
  unfold handleVideoFileChange, createObjectURL. rewrite Hdn. cbn [negb].
  unfold dayNightRequest, setSettings, desiredSource, with_slot.
  cbn [settings emit with_settings with_objectURLs bgImage nextBgImage].
  apply String.eqb_neq in Hbg.
  destruct (isDayTime hour);
    cbn [enableDayNightMode dayBgUrl nightBgUrl with_dayBgUrl with_nightBgUrl];
    rewrite Hdn, Hbg; cbn [negb andb];
    (destruct (nextBgImage w) as [n|] eqn:En;
     [ assert (E : String.eqb n ("blob:" +:+ pretty (objectURLs w)) = false)
         by (apply String.eqb_neq; congruence);
       rewrite E |]);
    rewrite (isVideoUrl_blob _ (startsWith_append "blob:" _)); reflexivity.
Qed.

(** ** Style toggles *)

(** The style that follows [c] in the cycle. *)
Lemma nextInCycle_clock (c : ClockStyle) :
  nextInCycle ClockStyle_value ClockStyle_values c =
  Some match c with
       | IOS_MODERN => IOS_CLEAN | IOS_CLEAN => ANALOG | ANALOG => NEON
       | NEON => ELEGANT | ELEGANT => WORD | WORD => CHINESE_VERTICAL
       | CHINESE_VERTICAL => CHINESE_INK | CHINESE_INK => CHINESE_CLASSIC
       | CHINESE_CLASSIC => IOS_MODERN
       end.
Proof. by destruct c. Qed.

Lemma nextInCycle_calendar (c : CalendarStyle) :
  nextInCycle CalendarStyle_value CalendarStyle_values c =
  Some match c with
       | GRID => LIST | LIST => BIG_CARD | BIG_CARD => STRIP | STRIP => DOTS
       | DOTS => RED_FESTIVE | RED_FESTIVE => INK_SCROLL | INK_SCROLL => GRID
       end.
Proof. by destruct c. Qed.

Lemma with_clockStyle_same (s : AppSettings) : with_clockStyle (clockStyle s) s = s.
Proof. by destruct s. Qed.

Lemma with_calendarStyle_same (s : AppSettings) :
  with_calendarStyle (calendarStyle s) s = s.
Proof. by destruct s. Qed.

Lemma toggleClockStyle_unfold (w : World) :
  exists c,
    nextInCycle ClockStyle_value ClockStyle_values (clockStyle (settings w)) = Some c /\
    toggleClockStyle w = setSettings (with_clockStyle c) w.
Proof.
  unfold toggleClockStyle. fold ClockStyle_values. rewrite nextInCycle_clock.
  by eexists.
Qed.

Lemma toggleCalendarStyle_unfold (w : World) :
  exists c,
    nextInCycle CalendarStyle_value CalendarStyle_values (calendarStyle (settings w)) = Some c /\
    toggleCalendarStyle w = setSettings (with_calendarStyle c) w.
Proof.
  unfold toggleCalendarStyle. fold CalendarStyle_values. rewrite nextInCycle_calendar.
  by eexists.
Qed.

Lemma toggleClockStyle_iter (k : nat) (w : World) :
  exists c,
    settings (Nat.iter k toggleClockStyle w) = with_clockStyle c (settings w) /\
    Some c = Nat.iter k (fun o => o ≫= nextInCycle ClockStyle_value ClockStyle_values)
               (Some (clockStyle (settings w))) /\
    bgImage (Nat.iter k toggleClockStyle w) = bgImage w /\
    nextBgImage (Nat.iter k toggleClockStyle w) = nextBgImage w /\
    timers (Nat.iter k toggleClockStyle w) = timers w /\
    db (Nat.iter k toggleClockStyle w) = db w /\
    length (trace (Nat.iter k toggleClockStyle w)) = length (trace w) + k.
Proof.
  induction k as [|k (c & Hs & Hc & H1 & H2 & H3 & H4 & H5)]; simpl.
  - exists (clockStyle (settings w)). rewrite with_clockStyle_same.
    split_and!; first [done|lia].
  - destruct (toggleClockStyle_unfold (Nat.iter k toggleClockStyle w)) as (c' & Hn & ->).
    rewrite Hs in Hn. cbn [clockStyle with_clockStyle] in Hn.
    exists c'. unfold setSettings.
    cbn [settings trace emit with_settings bgImage nextBgImage timers db].
    rewrite Hs, length_app, H5, <- Hc. cbn [with_clockStyle length mbind option_bind].
    split_and!; first [done|lia].
Qed.

Lemma toggleCalendarStyle_iter (k : nat) (w : World) :
  exists c,
    settings (Nat.iter k toggleCalendarStyle w) = with_calendarStyle c (settings w) /\
    Some c = Nat.iter k (fun o => o ≫= nextInCycle CalendarStyle_value CalendarStyle_values)
               (Some (calendarStyle (settings w))).
Proof.
  induction k as [|k (c & Hs & Hc)]; simpl.
  - exists (calendarStyle (settings w)). by rewrite with_calendarStyle_same.
  - destruct (toggleCalendarStyle_unfold (Nat.iter k toggleCalendarStyle w))
      as (c' & Hn & ->).
    rewrite Hs in Hn. cbn [calendarStyle with_calendarStyle] in Hn.
    exists c'. unfold setSettings. cbn [settings emit with_settings].
    rewrite Hs, <- Hc. cbn [with_calendarStyle mbind option_bind]. by split.
Qed.

(** X3: pressing the clock-style button nine times brings the settings
    back to what they were, no fewer presses do, and every style comes up
    on the way; the background, the pending callbacks and the store are
    not touched, and each press saves the settings once. *)
Theorem toggleClockStyle_cycle (w : World) :
  settings (Nat.iter 9 toggleClockStyle w) = settings w /\
  (forall k, 0 < k < 9 ->
     clockStyle (settings (Nat.iter k toggleClockStyle w)) <> clockStyle (settings w)) /\
  (forall c, exists k, k < 9 /\ clockStyle (settings (Nat.iter k toggleClockStyle w)) = c) /\
  (forall k, bgImage (Nat.iter k toggleClockStyle w) = bgImage w /\
             nextBgImage (Nat.iter k toggleClockStyle w) = nextBgImage w /\
             timers (Nat.iter k toggleClockStyle w) = timers w /\
             db (Nat.iter k toggleClockStyle w) = db w /\
             length (trace (Nat.iter k toggleClockStyle w)) = length (trace w) + k).
Proof.
  split_and!.
  - destruct (toggleClockStyle_iter 9 w) as (c & Hs & Hc & _). rewrite Hs.
    destruct (settings w) as [a b cs d e f g h i j k l]. cbn in Hc |- *.
    destruct cs; injection Hc as ->; reflexivity.
  - intros k Hk. destruct (toggleClockStyle_iter k w) as (c & Hs & Hc & _).
    rewrite Hs. cbn [clockStyle with_clockStyle].
    destruct k as [|[|[|[|[|[|[|[|[|k]]]]]]]]]; try lia;
      destruct (clockStyle (settings w)); cbn in Hc; injection Hc as ->; discriminate.
  - intros c.
    assert (H : exists k, k < 9 /\
              Some c = Nat.iter k (fun o => o ≫= nextInCycle ClockStyle_value ClockStyle_values)
                         (Some (clockStyle (settings w)))).
    { destruct (clockStyle (settings w)), c;
        first [ exists 0; split; [lia|reflexivity] | exists 1; split; [lia|reflexivity]
              | exists 2; split; [lia|reflexivity] | exists 3; split; [lia|reflexivity]
              | exists 4; split; [lia|reflexivity] | exists 5; split; [lia|reflexivity]
              | exists 6; split; [lia|reflexivity] | exists 7; split; [lia|reflexivity]
              | exists 8; split; [lia|reflexivity] ]. }
    destruct H as (k & Hk & Hc). exists k. split; [done|].
    destruct (toggleClockStyle_iter k w) as (c' & Hs & Hc' & _).
    rewrite Hs. cbn [clockStyle with_clockStyle]. congruence.
  - intros k. destruct (toggleClockStyle_iter k w) as (c & _ & _ & H). exact H.
Qed.

(** X4: the calendar-style button runs through a cycle of seven: seven
    presses restore the settings, fewer do not, and every style comes
    up. *)
Theorem toggleCalendarStyle_cycle (w : World) :
  settings (Nat.iter 7 toggleCalendarStyle w) = settings w /\
  (forall k, 0 < k < 7 ->
     calendarStyle (settings (Nat.iter k toggleCalendarStyle w)) <>
     calendarStyle (settings w)) /\
  (forall c, exists k,
     k < 7 /\ calendarStyle (settings (Nat.iter k toggleCalendarStyle w)) = c).
Proof.
  split_and!.
  - destruct (toggleCalendarStyle_iter 7 w) as (c & Hs & Hc). rewrite Hs.
    destruct (settings w) as [a b cs d e f g h i j k l]. cbn in Hc |- *.
    destruct d; injection Hc as ->; reflexivity.
  - intros k Hk. destruct (toggleCalendarStyle_iter k w) as (c & Hs & Hc).
    rewrite Hs. cbn [calendarStyle with_calendarStyle].
    destruct k as [|[|[|[|[|[|[|k]]]]]]]; try lia;
      destruct (calendarStyle (settings w)); cbn in Hc; injection Hc as ->; discriminate.
  - intros c.
    assert (H : exists k, k < 7 /\
              Some c = Nat.iter k
                         (fun o => o ≫= nextInCycle CalendarStyle_value CalendarStyle_values)
                         (Some (calendarStyle (settings w)))).
    { destruct (calendarStyle (settings w)), c;
        first [ exists 0; split; [lia|reflexivity] | exists 1; split; [lia|reflexivity]
              | exists 2; split; [lia|reflexivity] | exists 3; split; [lia|reflexivity]
              | exists 4; split; [lia|reflexivity] | exists 5; split; [lia|reflexivity]
              | exists 6; split; [lia|reflexivity] ]. }
    destruct H as (k & Hk & Hc). exists k. split; [done|].
    destruct (toggleCalendarStyle_iter k w) as (c' & Hs & Hc').
    rewrite Hs. cbn [calendarStyle with_calendarStyle]. congruence.
Qed.

(** ** The digital clock *)

(** Checking a decidable property of the integers below a bound. *)
Lemma forall_below (P : Z -> bool) (n : nat) :
  forallb P (map Z.of_nat (seq 0 n)) = true ->
  forall z, (0 <= z < Z.of_nat n)%Z -> P z = true.
Proof.
  intros H z Hz. rewrite forallb_forall in H. apply H.
  apply in_map_iff. exists (Z.to_nat z). split; [lia|]. apply in_seq. lia.
Qed.

(** X5: on the hours of a day the 12-hour reading lies between 1 and 12
    (midnight and noon read 12), the afternoon marker is shown exactly
    from 12 on, and reading and marker together give the hour back. *)
Theorem civilianHour_round_trip (h : Z) :
  (0 <= h < 24)%Z ->
  (1 <= civilianHour h <= 12)%Z /\
  (ampm h = "下午" <-> (12 <= h)%Z) /\
  (ampm h = "上午" <-> (h < 12)%Z) /\
  h = (Z.rem (civilianHour h) 12 + (if String.eqb (ampm h) "下午" then 12 else 0))%Z.
Proof.
  intros Hh.
  pose proof (forall_below
    (fun h => (1 <=? civilianHour h)%Z && (civilianHour h <=? 12)%Z &&
              (h =? Z.rem (civilianHour h) 12 +
                    (if String.eqb (ampm h) "下午" then 12 else 0))%Z)
    24 eq_refl h Hh) as H.
  cbv beta in H. rewrite !andb_true_iff, !Z.leb_le, Z.eqb_eq in H.
  destruct H as [[H1 H2] H3]. split; [lia|]. split; [|split; [|exact H3]].
  - unfold ampm. destruct (h >=? 12)%Z eqn:E; rewrite Z.geb_leb in E.
    + apply Z.leb_le in E. done.
    + apply Z.leb_gt in E. split; [done|lia].
  - unfold ampm. destruct (h >=? 12)%Z eqn:E; rewrite Z.geb_leb in E.
    + apply Z.leb_le in E. split; [done|lia].
    + apply Z.leb_gt in E. done.
Qed.

(** X6: minutes, seconds and 24-hour hours below 100 are shown with
    exactly two decimal digits, tens first, a leading zero included; in
    12-hour mode the same holds for the 12-hour reading, so two hours
    look alike exactly when they differ by twelve. *)
Theorem two_digit_formatting (n : Z) :
  (0 <= n < 100)%Z ->
  formatMinSec n = String (digitChar (n / 10)) (String (digitChar (n mod 10)) "") /\
  formatHour true n = formatMinSec n /\
  String.length (formatMinSec n) = 2 /\
  (forall m, (0 <= m < 100)%Z -> formatMinSec n = formatMinSec m -> n = m) /\
  (forall h, (0 <= n < 24)%Z -> (0 <= h < 24)%Z ->
     (formatHour false n = formatHour false h <-> (n - h) mod 12 = 0)%Z).
Proof.
  intros Hn.
  assert (Hfmt : forall k, (0 <= k < 100)%Z ->
            formatMinSec k = String (digitChar (k / 10)) (String (digitChar (k mod 10)) "")).
  { intros k Hk. apply String.eqb_eq.
    exact (forall_below
      (fun k => String.eqb (formatMinSec k)
                  (String (digitChar (k / 10)) (String (digitChar (k mod 10)) "")))
      100 eq_refl k Hk). }
  assert (Hinj : forall k m, (0 <= k < 100)%Z -> (0 <= m < 100)%Z ->
            formatMinSec k = formatMinSec m -> k = m).
  { intros k m Hk Hm. rewrite (Hfmt k Hk), (Hfmt m Hm). intros [= H1 H2].
    assert (D : forall a b, (0 <= a < 10)%Z -> (0 <= b < 10)%Z ->
              digitChar a = digitChar b -> a = b).
    { intros a b Ha Hb E. unfold digitChar in E.
      apply (f_equal nat_of_ascii) in E. rewrite !nat_ascii_embedding in E; lia. }
    assert (Q : forall x, (0 <= x < 100)%Z -> (0 <= x / 10 < 10)%Z /\ (0 <= x mod 10 < 10)%Z).
    { intros x Hx. split; [|apply Z.mod_pos_bound; lia].
      split; [apply Z.div_pos; lia|apply Z.div_lt_upper_bound; lia]. }
    destruct (Q k Hk) as [Qk1 Qk2], (Q m Hm) as [Qm1 Qm2].
    apply D in H1; [|done..]. apply D in H2; [|done..].
    rewrite (Z.div_mod k 10), (Z.div_mod m 10) by lia. congruence. }
  split; [by apply Hfmt|]. split; [done|]. split; [by rewrite Hfmt|].
  split; [intros m Hm; by apply Hinj|].
  intros h Hn' Hh. unfold formatHour. fold (formatMinSec (civilianHour n)).
  fold (formatMinSec (civilianHour h)).
  assert (Hc : forall x, (0 <= x < 24)%Z ->
            (1 <= civilianHour x <= 12)%Z /\ ((civilianHour x - x) mod 12 = 0)%Z).
  { intros x Hx.
    pose proof (forall_below
      (fun x => (1 <=? civilianHour x)%Z && (civilianHour x <=? 12)%Z &&
                ((civilianHour x - x) mod 12 =? 0)%Z) 24 eq_refl x Hx) as H.
    cbv beta in H. rewrite !andb_true_iff, !Z.leb_le, Z.eqb_eq in H. tauto. }
  destruct (Hc n Hn') as [Bn Mn], (Hc h Hh) as [Bh Mh].
  split.
  - intros E. apply Hinj in E; [|lia..].
    replace (n - h)%Z with ((civilianHour h - h) - (civilianHour n - n))%Z by lia.
    rewrite Zminus_mod, Mh, Mn. reflexivity.
  - intros E. f_equal.
    assert (Hd : ((civilianHour n - civilianHour h) mod 12 = 0)%Z).
    { replace (civilianHour n - civilianHour h)%Z
        with ((civilianHour n - n) - (civilianHour h - h) + (n - h))%Z by lia.
      rewrite Zplus_mod, Zminus_mod, Mn, Mh, E. reflexivity. }
    apply Z.mod_divide in Hd; [|lia]. destruct Hd as [q Hq]. lia.
Qed.

(** X7: for every hour of the day [getShichen] finds a branch (the
    index stays inside the table), the branch with number k names the
    two hours 2k-1 and 2k, and 23 and 0 o'clock share the first one. *)
Theorem getShichen_double_hours (h : Z) :
  (0 <= h < 24)%Z ->
  (0 <= shichenIndex h < 12)%Z /\
  is_Some (getShichen h) /\
  getShichen h = earthlyBranches !! Z.to_nat (((h + 1) / 2) mod 12) /\
  (forall h', (0 <= h' < 24)%Z ->
     (getShichen h = getShichen h' <-> ((h + 1) / 2) mod 12 = ((h' + 1) / 2) mod 12)%Z).
Proof.
  intros Hh.
  assert (Hidx : forall x, (0 <= x < 24)%Z ->
            shichenIndex x = (((x + 1) / 2) mod 12)%Z /\ (0 <= shichenIndex x < 12)%Z).
  { intros x Hx.
    pose proof (forall_below
      (fun x => (shichenIndex x =? ((x + 1) / 2) mod 12)%Z &&
                (0 <=? shichenIndex x)%Z && (shichenIndex x <? 12)%Z) 24 eq_refl x Hx) as H.
    cbv beta in H. rewrite !andb_true_iff, Z.eqb_eq, Z.leb_le, Z.ltb_lt in H. tauto. }
  assert (Hget : forall x, (0 <= x < 24)%Z ->
            getShichen x = earthlyBranches !! Z.to_nat (shichenIndex x)).
  { intros x Hx. unfold getShichen. destruct (Hidx x Hx) as [_ B].
    destruct (shichenIndex x <? 0)%Z eqn:E; [|done]. apply Z.ltb_lt in E. lia. }
  assert (Hnodup : NoDup earthlyBranches).
  { apply (bool_decide_unpack _). by vm_compute. }
  destruct (Hidx h Hh) as [Ei Bi].
  split; [done|]. split; [|split].
  - rewrite Hget by done. apply lookup_lt_is_Some. simpl. lia.
  - rewrite Hget by done. by rewrite Ei.
  - intros h' Hh'. destruct (Hidx h' Hh') as [Ei' Bi'].
    rewrite !Hget by done. rewrite <- Ei, <- Ei'. split.
    + intros E.
      destruct (lookup_lt_is_Some_2 earthlyBranches (Z.to_nat (shichenIndex h)))
        as [x Hx]; [simpl; lia|].
      rewrite Hx in E. symmetry in E.
      pose proof (NoDup_lookup _ _ _ _ Hnodup Hx E). lia.
    + by intros ->.
Qed.

(** X8: [toChineseNum] has a reading for every number from 0 to 99,
    with or without the hour form, and two different numbers in that
    range never read the same; below zero the digit table has no entry
    and the result is [undefined]. *)
Theorem toChineseNum_readings (n : Z) (isHour : bool) :
  ((0 <= n <= 99)%Z -> is_Some (toChineseNum n isHour)) /\
  (forall m, (0 <= n <= 99)%Z -> (0 <= m <= 99)%Z ->
     toChineseNum n isHour = toChineseNum m isHour -> n = m) /\
  ((n < 0)%Z -> toChineseNum n isHour = None).
Proof.
  split; [|split].
  - intros Hn.
    pose proof (forall_below
      (fun n => bool_decide (is_Some (toChineseNum n true)) &&
                bool_decide (is_Some (toChineseNum n false))) 100 eq_refl n ltac:(lia)) as H.
    cbv beta in H. rewrite andb_true_iff, !bool_decide_eq_true in H.
    destruct isHour; tauto.
  - intros m Hn Hm E.
    pose proof (forall_below
      (fun n => forallb (fun m => implb (sameReading true n m || sameReading false n m)
                                    (n =? m)%Z)
                  (map Z.of_nat (seq 0 100))) 100 eq_refl n ltac:(lia)) as H.
    cbv beta in H.
    pose proof (forall_below _ 100 H m ltac:(lia)) as H'. cbv beta in H'.
    assert (S : sameReading true n m || sameReading false n m = true).
    { unfold sameReading. destruct isHour.
      - rewrite (bool_decide_eq_true_2 _ E). done.
      - rewrite (bool_decide_eq_true_2 _ E). by rewrite orb_true_r. }
    rewrite S in H'. simpl in H'. by apply Z.eqb_eq in H'.
  - intros Hn. unfold toChineseNum, chineseDigit.
    assert (E1 : (n =? 2)%Z = false) by (apply Z.eqb_neq; lia).
    assert (E2 : (n <=? 9)%Z = true) by (apply Z.leb_le; lia).
    assert (E3 : (n <? 0)%Z = true) by (apply Z.ltb_lt; lia).
    by rewrite E1, E2, E3, andb_false_r.
Qed.

(** ** The compressor, again *)

(** X9: the canvas is never larger than the image nor than 1920 on a
    side (the compressor never enlarges), and compressing an already
    compressed size changes nothing. *)
Theorem targetSize_never_enlarges (width height : Z) :
  (0 < width)%Z -> (0 < height)%Z ->
  let cw := fst (targetSize width height) in
  let ch := snd (targetSize width height) in
  (0 <= cw <= Z.min width 1920)%Z /\ (0 <= ch <= Z.min height 1920)%Z /\
  targetSize cw ch = (cw, ch).
Proof.
  intros Hw Hh cw ch.
  assert (B : (0 <= cw <= Z.min width 1920)%Z /\ (0 <= ch <= Z.min height 1920)%Z).
  { subst cw ch. unfold targetSize, maxDim.
    destruct (width >? 1920)%Z eqn:E1; destruct (height >? 1920)%Z eqn:E2; simpl;
      try (destruct (width >? height)%Z eqn:E3); simpl;
      rewrite ?Z.gtb_ltb, ?Z.ltb_lt, ?Z.ltb_ge in *;
      try match goal with
          | |- context [roundDiv (?x * 1920) ?b] =>
              pose proof (roundDiv_le (x * 1920) b 1920 ltac:(lia) ltac:(lia) ltac:(nia));
              pose proof (roundDiv_nonneg (x * 1920) b ltac:(nia) ltac:(lia));
              pose proof (roundDiv_le (x * 1920) b x ltac:(lia) ltac:(lia) ltac:(nia))
          end; lia. }
  split; [tauto|]. split; [tauto|].
  unfold targetSize at 1, maxDim.
  assert (E1 : (cw >? 1920)%Z = false) by (rewrite Z.gtb_ltb; apply Z.ltb_ge; lia).
  assert (E2 : (ch >? 1920)%Z = false) by (rewrite Z.gtb_ltb; apply Z.ltb_ge; lia).
  by rewrite E1, E2.
Qed.

(** X10: when the image is scaled down, its shorter side rounds to zero
    pixels exactly when the longer side is more than 3840 times the
    shorter one; in every other case both sides of the canvas are at
    least one pixel. *)
Theorem targetSize_collapses_only_beyond_3840 (width height : Z) :
  (0 < width)%Z -> (0 < height)%Z ->
  (width > 1920 \/ height > 1920)%Z ->
  let cw := fst (targetSize width height) in
  let ch := snd (targetSize width height) in
  (Z.min cw ch = 0 <-> 3840 * Z.min width height < Z.max width height)%Z.
Proof.
  intros Hw Hh Hbig cw ch. subst cw ch. unfold targetSize, maxDim.
  assert (R : forall a b, (0 <= a)%Z -> (0 < b)%Z ->
            (0 <= roundDiv a b)%Z /\ (roundDiv a b = 0 <-> 2 * a < b)%Z).
  { intros a b Ha Hb. split; [by apply roundDiv_nonneg|]. unfold roundDiv. split.
    - intros E. apply Z.div_small_iff in E; lia.
    - intros E. apply Z.div_small. lia. }
  destruct (width >? 1920)%Z eqn:E1; destruct (height >? 1920)%Z eqn:E2; simpl;
    try (destruct (width >? height)%Z eqn:E3); simpl;
    rewrite ?Z.gtb_ltb, ?Z.ltb_lt, ?Z.ltb_ge in *; try lia;
    match goal with
    | |- context [roundDiv ?a ?b] =>
        destruct (R a b ltac:(nia) ltac:(lia)) as [R0 R1];
        pose proof (roundDiv_le a b 1920 ltac:(lia) ltac:(lia) ltac:(nia))
    end; lia.
Qed.

(** X11: [compressImage] cleans up after itself.  For a file or blob it
    creates one object URL and revokes that same URL once, whether the
    image decodes or not and whether a canvas context is available or
    not; for a string source it touches nothing.  The component state,
    the pending callbacks and the store are never changed. *)
Theorem compressImage_revokes_its_url (source : Asset) (decoded : option (Z * Z))
    (ctx2d : bool) (w : World) :
  let w' := snd (compressImage source decoded ctx2d w) in
  match source with
  | ABlob b =>
      let url := "blob:" +:+ pretty (objectURLs w) in
      trace w' = (trace w ++ [EvCreateObjectURL url b; EvRevokeObjectURL url])%list /\
      objectURLs w' = S (objectURLs w) /\
      releases url (trace w') = S (releases url (trace w)) /\
      creations url (trace w') = S (creations url (trace w))
  | AStr _ => w' = w
  end /\
  bgImage w' = bgImage w /\ nextBgImage w' = nextBgImage w /\
  timers w' = timers w /\ db w' = db w /\ settings w' = settings w.
Proof.
  intros w'. subst w'. unfold compressImage, createObjectURL, revokeObjectURL.
  destruct source as [s|b], decoded as [[width height]|];
    try destruct (targetSize width height); cbn;
    rewrite <- ?app_assoc; cbn; try done.
  all: unfold releases, creations; rewrite !List.filter_app, !length_app; cbn;
       rewrite String.eqb_refl; cbn; split_and!; first [done|lia].
Qed.

(** ** Startup restoration: nothing to restore *)

(** X13: the restoration starts no transition and leaves the initial
    background when the store has no background (first run), when the
    stored source is the empty string, and when the store cannot be
    opened (two errors are logged); in day/night mode it does not even
    read the store.  A background stored without its kind is restored as
    an image. *)
Theorem restoreBackground_nothing_to_restore (p : Preload) (w : World) :
  (enableDayNightMode (settings w) = true -> restoreBackground p w = w) /\
  (enableDayNightMode (settings w) = false ->
     (dbUp w = true -> db w !! KEY_BG = None \/ db w !! KEY_BG = Some (AStr "") ->
        restoreBackground p w = emit (EvDbGet KEY_BG) (emit (EvDbGet KEY_BG_TYPE) w)) /\
     (dbUp w = false ->
        restoreBackground p w =
          consoleError "Failed to read from DB:" (consoleError "Failed to read from DB:" w)) /\
     (forall src, dbUp w = true -> db w !! KEY_BG = Some (AStr src) ->
        db w !! KEY_BG_TYPE = None -> src <> "" -> src <> bgImage w ->
        timers (restoreBackground p w) =
          (timers w ++ [mkTimer (now w + latency p)
                          (CbPreloadDone (loaded p) src image (bgImage w))])%list)).
Proof.
  unfold restoreBackground, getAssetFromDB. split; [by intros ->|].
  intros ->. split_and!.
  - intros Hup [H|H]; do 3 (cbn [dbUp db emit]; rewrite ?Hup); rewrite H; done.
  - intros Hup. do 3 (cbn [dbUp db emit consoleError]; rewrite ?Hup). done.
  - intros src Hup Hd Ht Hne Hbg. do 3 (cbn [dbUp db emit]; rewrite ?Hup).
    rewrite Hd, Ht.
    apply String.eqb_neq in Hne, Hbg. rewrite Hne. unfold triggerBgTransition.
    by rewrite Hbg.
Qed.

(** ** Uploads and fetches outside day/night mode *)

Lemma saveAssetToDB_up (key : string) (d : Asset) (w : World) :
  dbUp w = true ->
  saveAssetToDB key d w = emit (EvDbPut key d) (with_db (<[key := d]> (db w)) w).
Proof. intros H. unfold saveAssetToDB. by rewrite H. Qed.

(** Both keys are written, then the transition is requested and runs
    its course. *)
Lemma persist_then_transition (p : Preload) (src : string) (d : Asset) (tag : string)
    (type : Kind) (w0 w : World) :
  dbUp w = true -> timers w = [] -> bgImage w = bgImage w0 ->
  let w' :=
    runLoop 5 (triggerBgTransition p (bgImage w0) src type
                 (saveAssetToDB KEY_BG_TYPE (AStr tag) (saveAssetToDB KEY_BG d w))) in
  db w' !! KEY_BG = Some d /\ db w' !! KEY_BG_TYPE = Some (AStr tag) /\
  dbAccesses (trace w') =
    (dbAccesses (trace w) ++ [EvDbPut KEY_BG d; EvDbPut KEY_BG_TYPE (AStr tag)])%list /\
  consoleLog (trace w') =
    (consoleLog (trace w) ++
     if String.eqb src (bgImage w0) then [] else preloadLog (loaded p) type)%list /\
  timers w' = [] /\
  (src <> bgImage w0 ->
     bgImage w' = src /\ bgType w' = type /\ nextBgImage w' = None /\
     isBgTransitioning w' = false) /\
  (src = bgImage w0 ->
     bgImage w' = bgImage w0 /\ bgType w' = bgType w /\ nextBgImage w' = nextBgImage w).
Proof.
  intros Hup Ht Hbg w'. subst w'.
  rewrite (saveAssetToDB_up KEY_BG d w Hup).
  rewrite saveAssetToDB_up by done.
  rewrite runLoop_trigger by done.
  assert (Hf : forall (f : Event -> bool) l1 l2,
            List.filter f (l1 ++ l2) = (List.filter f l1 ++ List.filter f l2)%list)
    by apply List.filter_app.
  destruct (String.eqb src (bgImage w0)) eqn:E.
  - apply String.eqb_eq in E. unfold dbAccesses, consoleLog.
    cbn [db trace timers bgImage bgType nextBgImage emit with_db].
    rewrite !Hf. cbn [List.filter isDbEvent isLog]. rewrite !app_nil_r, <- app_assoc.
    split_and!; try done.
    + by rewrite lookup_insert_ne, lookup_insert_eq.
    + by rewrite lookup_insert_eq.
  - apply String.eqb_neq in E. unfold settled, dbAccesses, consoleLog.
    cbn [db trace timers bgImage bgType nextBgImage isBgTransitioning emit with_db].
    rewrite !Hf. cbn [List.filter isDbEvent isLog]. rewrite !app_nil_r, <- !app_assoc.
    split_and!; try done.
    + by rewrite lookup_insert_ne, lookup_insert_eq.
    + by rewrite lookup_insert_eq.
    + cbn [app]. do 2 f_equal. by destruct type, (loaded p).
    + by destruct type, (loaded p).
Qed.

(** X14: an image uploaded outside day/night mode, with the store open
    and nothing else pending: the compressed data URL is written under
    [current_bg_file] and ["image"] under [current_bg_type] (two writes,
    no read), and once the transition has run the data URL is on screen
    as an image with the top layer cleared.  When that URL is already on
    screen the store is written all the same and nothing else changes. *)
Theorem image_upload_end_to_end (file : Blob) (width height hour : Z) (p : Preload)
    (w : World) :
  enableDayNightMode (settings w) = false -> dbUp w = true -> timers w = [] ->
  blob_image file = Some (width, height) ->
  let e :=
    toDataURL
      (mkCanvas (fst (targetSize width height)) (snd (targetSize width height)) (ABlob file))
      "image/jpeg" JPEG_QUALITY in
  let w' := runLoop 5 (handleImageFileChange (Some file) true hour p w) in
  db w' !! KEY_BG = Some (AStr e) /\ db w' !! KEY_BG_TYPE = Some (AStr "image") /\
  dbAccesses (trace w') =
    (dbAccesses (trace w) ++ [EvDbPut KEY_BG (AStr e); EvDbPut KEY_BG_TYPE (AStr "image")])%list /\
  timers w' = [] /\
  (e <> bgImage w ->
     bgImage w' = e /\ bgType w' = image /\ nextBgImage w' = None /\
     isBgTransitioning w' = false) /\
  (e = bgImage w ->
     bgImage w' = bgImage w /\ bgType w' = bgType w /\ nextBgImage w' = nextBgImage w).
Proof.
  intros Hdn Hup Ht Himg e w'. subst w' e.
  unfold handleImageFileChange, compressImage, createObjectURL, revokeObjectURL.
  rewrite Himg, Hdn. destruct (targetSize width height) as [cw ch]. cbn [negb fst snd].
  match goal with
  | |- context [saveAssetToDB KEY_BG ?d ?w1] =>
      destruct (persist_then_transition p
                  (toDataURL (mkCanvas cw ch (ABlob file)) "image/jpeg" JPEG_QUALITY)
                  d "image" image w w1 Hup Ht eq_refl)
        as (H1 & H2 & H3 & _ & H4 & H5 & H6)
  end.
  split_and!; try done.
  rewrite H3. unfold dbAccesses. cbn [trace emit with_objectURLs].
  rewrite !List.filter_app. cbn [List.filter isDbEvent]. by rewrite !app_nil_r.
Qed.

(** X15: when the fetch fails (or its reply cannot be compressed)
    outside day/night mode, the cache-busting URL itself becomes the
    background: it is stored with kind image, a warning is logged, and
    after the transition it is on screen.  The URL is the configured one
    followed by [?t=] and the entropy, or [&t=] when the configured URL
    already has a query; with an empty configured URL nothing happens. *)
Theorem handleFetchBg_fallback (entropy : string) (response : option Blob)
    (ctx2d : bool) (hour : Z) (p : Preload) (w : World) :
  (bingApiUrl (settings w) = "" -> handleFetchBg entropy response ctx2d hour p w = w) /\
  (bingApiUrl (settings w) <> "" ->
   enableDayNightMode (settings w) = false -> dbUp w = true -> timers w = [] ->
   (response = None \/
    exists blob, response = Some blob /\ (blob_image blob = None \/ ctx2d = false)) ->
   let fetchUrl := cacheBusted (bingApiUrl (settings w)) entropy in
   let w' := runLoop 5 (handleFetchBg entropy response ctx2d hour p w) in
   startsWith fetchUrl (bingApiUrl (settings w)) = true /\
   endsWith fetchUrl ("t=" +:+ entropy) = true /\
   db w' !! KEY_BG = Some (AStr fetchUrl) /\
   db w' !! KEY_BG_TYPE = Some (AStr "image") /\
   EvConsoleWarn "Fetch or compress failed, fallback to URL load" ∈ trace w' /\
   timers w' = [] /\
   (fetchUrl <> bgImage w ->
      bgImage w' = fetchUrl /\ bgType w' = image /\ nextBgImage w' = None)).
Proof.
  split.
  - intros H. unfold handleFetchBg. by rewrite H.
  - intros Hurl Hdn Hup Ht Hresp fetchUrl w'. subst w'.
    split; [apply startsWith_append|].
    split.
    { subst fetchUrl. unfold cacheBusted.
      rewrite <- (append_assoc (bingApiUrl (settings w))). apply endsWith_append. }
    apply String.eqb_neq in Hurl.
    unfold handleFetchBg. rewrite Hurl, Hdn. cbn [negb]. fold (cacheBusted (bingApiUrl (settings w)) entropy).
    fold fetchUrl.
    assert (G : forall w1, dbUp w1 = true -> timers w1 = [] -> bgImage w1 = bgImage w ->
              EvConsoleWarn "Fetch or compress failed, fallback to URL load" ∈ trace w1 ->
              let w' := runLoop 5 (triggerBgTransition p (bgImage w) fetchUrl image
                          (saveAssetToDB KEY_BG_TYPE (AStr "image")
                             (saveAssetToDB KEY_BG (AStr fetchUrl) w1))) in
              db w' !! KEY_BG = Some (AStr fetchUrl) /\
              db w' !! KEY_BG_TYPE = Some (AStr "image") /\
              EvConsoleWarn "Fetch or compress failed, fallback to URL load" ∈ trace w' /\
              timers w' = [] /\
              (fetchUrl <> bgImage w ->
                 bgImage w' = fetchUrl /\ bgType w' = image /\ nextBgImage w' = None)).
    { intros w1 Hup1 Ht1 Hbg1 Hin.
      destruct (persist_then_transition p fetchUrl (AStr fetchUrl) "image" image w w1
                  Hup1 Ht1 Hbg1) as (H1 & H2 & _ & _ & H4 & H5 & _).
      cbv zeta. split_and!; try done.
      - rewrite (saveAssetToDB_up KEY_BG _ w1 Hup1). rewrite saveAssetToDB_up by done.
        rewrite runLoop_trigger by done.
        destruct (String.eqb fetchUrl (bgImage w)); unfold settled;
          cbn [trace emit with_db];
          repeat first [exact Hin | apply elem_of_app; left].
      - intros Hne. destruct (H5 Hne) as (? & ? & ? & _). done. }
    destruct Hresp as [->|(blob & -> & Hfail)].
    + apply G; try done. cbn [trace consoleWarn emit]. apply elem_of_app. right.
      apply list_elem_of_here.
    + unfold compressImage, createObjectURL, revokeObjectURL.
      destruct (blob_image blob) as [[width height]|] eqn:Eimg.
      * destruct Hfail as [Hfail| ->]; [done|].
        destruct (targetSize width height). cbn [fst snd].
        apply G; try done. cbn [trace consoleWarn emit]. apply elem_of_app. right.
        apply list_elem_of_here.
      * cbn [fst snd]. apply G; try done. cbn [trace consoleWarn emit].
        apply elem_of_app. right. apply list_elem_of_here.
Qed.

(** ** An upload the compressor rejects *)

(** ** The store, the day/night slots and the timing of a transition *)



(** The day/night effect only asks for a transition. *)
Lemma dayNightEffect_frame (p : Preload) (hours : Z) (w : World) :
  db (dayNightEffect p hours w) = db w /\ trace (dayNightEffect p hours w) = trace w /\
  settings (dayNightEffect p hours w) = settings w /\
  bgImage (dayNightEffect p hours w) = bgImage w /\
  nextBgImage (dayNightEffect p hours w) = nextBgImage w.
Proof.
  unfold dayNightEffect, triggerBgTransition, setTimeout.
  destruct (dayNightRequest hours w) as [[u k]|]; [|done]. by destruct (String.eqb _ _).
Qed.

(** After a commit that leaves the mode flag alone, or leaves it on, the
    effects that run again add nothing to the trace. *)
Lemma rerunEffects_quiet (p : Preload) (hours : Z) (w0 w1 : World) :
  enableDayNightMode (settings w1) = enableDayNightMode (settings w0) \/
  enableDayNightMode (settings w1) = true ->
  db (rerunEffects p hours w0 w1) = db w1 /\
  trace (rerunEffects p hours w0 w1) = trace w1 /\
  settings (rerunEffects p hours w0 w1) = settings w1 /\
  bgImage (rerunEffects p hours w0 w1) = bgImage w1 /\
  nextBgImage (rerunEffects p hours w0 w1) = nextBgImage w1 /\
  timers (rerunEffects p hours w0 w1) =
    timers (if dayNightDepsChanged w0 w1 then dayNightEffect p hours w1 else w1).
Proof.
  intros H. unfold rerunEffects.
  assert (E : (if restoreDepsChanged w0 w1 then restoreBackground p w1 else w1) = w1).
  { unfold restoreDepsChanged, restoreBackground. destruct H as [->| ->].
    - by rewrite Bool.eqb_reflx.
    - by destruct (negb _). }
  rewrite E. destruct (dayNightDepsChanged w0 w1); [|done].
  destruct (dayNightEffect_frame p hours w1) as (? & ? & ? & ? & ?). done.
Qed.


(** The handler by itself, before any effect runs again. *)
Lemma handleDayNightUpload_alone (file : Blob) (isDaySlot ctx2d : bool)
    (w : World) :
  let w' := handleDayNightUpload (Some file) isDaySlot ctx2d w in
  let url := "blob:" +:+ pretty (objectURLs w) in
  (startsWith (blob_type file) "video" = true ->
     settings w' = with_slot isDaySlot url (settings w) /\
     trace w' = (trace w ++ [EvCreateObjectURL url file;
                             EvLocalStorageSet "clockSettings" (settings w')])%list) /\
  (startsWith (blob_type file) "video" = false ->
     (forall width height,
        blob_image file = Some (width, height) -> ctx2d = true ->
        settings w' =
          with_slot isDaySlot
            (toDataURL
               (mkCanvas (fst (targetSize width height)) (snd (targetSize width height))
                         (ABlob file))
               "image/jpeg" JPEG_QUALITY)
            (settings w)) /\
     (blob_image file = None \/ ctx2d = false ->
        settings w' = settings w /\ consoleLog (trace w') = consoleLog (trace w)) /\
     releases url (trace w') = S (releases url (trace w))) /\
  (if isDaySlot then nightBgUrl (settings w') = nightBgUrl (settings w)
   else dayBgUrl (settings w') = dayBgUrl (settings w)) /\
  enableDayNightMode (settings w') = enableDayNightMode (settings w) /\
  bgImage w' = bgImage w /\ nextBgImage w' = nextBgImage w /\
  timers w' = timers w /\ db w' = db w /\
  handleDayNightUpload None isDaySlot ctx2d w = w.
Proof.
  intros w' url. subst w' url.
  unfold handleDayNightUpload, compressImage, createObjectURL, revokeObjectURL, setSettings.
  assert (R : forall u l1 l2, releases u (l1 ++ l2) = releases u l1 + releases u l2)
    by apply releases_app.
  destruct (startsWith (blob_type file) "video").
  - cbn [fst snd settings trace emit with_settings with_objectURLs bgImage nextBgImage
         timers db].
    split_and!; try done.
    + intros _. split; [done|]. by rewrite <- app_assoc.
    + by destruct isDaySlot, (settings w).
    + by destruct isDaySlot, (settings w).
  - destruct (blob_image file) as [[width height]|], ctx2d.
    + remember (targetSize width height) as ts eqn:Ets. destruct ts as [cw ch].
      cbn [fst snd settings trace emit with_settings with_objectURLs bgImage nextBgImage
           timers db].
      split_and!; try done.
      * intros _. split_and!.
        -- intros ? ? [= <- <-] _. by rewrite <- Ets.
        -- by intros [|].
        -- rewrite !R. unfold releases at 2 3 4.
           cbn [List.filter isRevokeOf isCreateOf length]. rewrite String.eqb_refl.
           cbn [length]. lia.
      * by destruct isDaySlot, (settings w).
      * by destruct isDaySlot, (settings w).
    + destruct (targetSize width height) as [cw ch].
      cbn [fst snd settings trace emit with_settings with_objectURLs bgImage nextBgImage
           timers db].
      split_and!; try done.
      * intros _. split_and!; [done| |].
        -- intros _. split; [done|]. unfold consoleLog.
           rewrite !List.filter_app. cbn [List.filter isLog]. by rewrite !app_nil_r.
        -- rewrite !R. unfold releases at 2 3.
           cbn [List.filter isRevokeOf length]. rewrite String.eqb_refl. cbn [length]. lia.
      * by destruct isDaySlot.
    + cbn [fst snd settings trace emit with_settings with_objectURLs bgImage nextBgImage
           timers db].
      split_and!; try done.
      * intros _. split_and!; [done| |].
        -- intros _. split; [done|]. unfold consoleLog.
           rewrite !List.filter_app. cbn [List.filter isLog]. by rewrite !app_nil_r.
        -- rewrite !R. unfold releases at 2 3.
           cbn [List.filter isRevokeOf length]. rewrite String.eqb_refl. cbn [length]. lia.
      * by destruct isDaySlot.
    + cbn [fst snd settings trace emit with_settings with_objectURLs bgImage nextBgImage
           timers db].
      split_and!; try done.
      * intros _. split_and!; [done| |].
        -- intros _. split; [done|]. unfold consoleLog.
           rewrite !List.filter_app. cbn [List.filter isLog]. by rewrite !app_nil_r.
        -- rewrite !R. unfold releases at 2 3.
           cbn [List.filter isRevokeOf length]. rewrite String.eqb_refl. cbn [length]. lia.
      * by destruct isDaySlot.
Qed.

Lemma dayNightRequest_blob (hours : Z) (w : World) (u : string) :
  enableDayNightMode (settings w) = true ->
  desiredSource hours (dayBgUrl (settings w)) (nightBgUrl (settings w)) = u ->
  startsWith u "blob:" = true -> bgImage w <> u -> nextBgImage w <> Some u ->
  dayNightRequest hours w = Some (u, video).
Proof.
  intros Hon Hu Hblob Hbg Hnx. unfold dayNightRequest. rewrite Hon, Hu.
  assert (E0 : String.eqb u "" = false).
  { apply String.eqb_neq. intros ->. discriminate Hblob. }
  apply String.eqb_neq in Hbg. rewrite E0, Hbg. cbn [negb andb].
  rewrite (isVideoUrl_blob u Hblob).
  destruct (nextBgImage w) as [n|]; [|done].
  assert (E : String.eqb n u = false) by (apply String.eqb_neq; congruence).
  by rewrite E.
Qed.

(** X17: an upload in the settings panel fills exactly the chosen
    day/night slot: a video file puts a new object URL there, which is
    not revoked; any other file goes through the compressor and its data
    URL is put there; when the compressor fails the settings stay as
    they were, the code logs nothing and no effect runs again.  The
    other slot, the mode, the two layers and the store are untouched.
    The slot is a dependency of the day/night effect, which runs again
    when the slot has changed: with the mode off it asks for nothing,
    and with the mode on a video put into the slot of the current period
    is preloaded at once, unless it is on a layer already. *)
Theorem handleDayNightUpload_fills_chosen_slot (file : Blob) (isDaySlot ctx2d : bool)
    (p : Preload) (hours : Z) (w : World) :
  let w' := rerunEffects p hours w (handleDayNightUpload (Some file) isDaySlot ctx2d w) in
  let url := "blob:" +:+ pretty (objectURLs w) in
  (startsWith (blob_type file) "video" = true ->
     settings w' = with_slot isDaySlot url (settings w) /\
     trace w' = (trace w ++ [EvCreateObjectURL url file;
                             EvLocalStorageSet "clockSettings" (settings w')])%list /\
     (enableDayNightMode (settings w) = true -> isDaySlot = isDayTime hours ->
      (if isDaySlot then dayBgUrl (settings w) else nightBgUrl (settings w)) <> url ->
      bgImage w <> url -> nextBgImage w <> Some url ->
      timers w' =
        (timers w ++ [mkTimer (now w + latency p)
                        (CbPreloadDone (loaded p) url video (bgImage w))])%list)) /\
  (startsWith (blob_type file) "video" = false ->
     (forall width height,
        blob_image file = Some (width, height) -> ctx2d = true ->
        settings w' =
          with_slot isDaySlot
            (toDataURL
               (mkCanvas (fst (targetSize width height)) (snd (targetSize width height))
                         (ABlob file))
               "image/jpeg" JPEG_QUALITY)
            (settings w)) /\
     (blob_image file = None \/ ctx2d = false ->
        settings w' = settings w /\ consoleLog (trace w') = consoleLog (trace w) /\
        timers w' = timers w) /\
     releases url (trace w') = S (releases url (trace w))) /\
  (if isDaySlot then nightBgUrl (settings w') = nightBgUrl (settings w)
   else dayBgUrl (settings w') = dayBgUrl (settings w)) /\
  enableDayNightMode (settings w') = enableDayNightMode (settings w) /\
  bgImage w' = bgImage w /\ nextBgImage w' = nextBgImage w /\ db w' = db w /\
  (enableDayNightMode (settings w) = false -> timers w' = timers w) /\
  rerunEffects p hours w (handleDayNightUpload None isDaySlot ctx2d w) = w.
Proof.
  intros w' url.
  destruct (handleDayNightUpload_alone file isDaySlot ctx2d w)
    as (Hvid & Himg & Hslot & Hmode & Hbg & Hnx & Htm & Hdb & Hnone).
  set (w1 := handleDayNightUpload (Some file) isDaySlot ctx2d w) in *.
  destruct (rerunEffects_quiet p hours w w1 (or_introl Hmode))
    as (Qdb & Qtr & Qset & Qbg & Qnext & Qtm).
  fold w' in Qdb, Qtr, Qset, Qbg, Qnext, Qtm.
  rewrite Qdb, Qtr, Qset, Qbg, Qnext, Qtm.
  assert (Hoff : enableDayNightMode (settings w) = false ->
                 timers (if dayNightDepsChanged w w1 then dayNightEffect p hours w1 else w1)
                 = timers w).
  { intros Hm. rewrite <- Htm. destruct (dayNightDepsChanged w w1); [|done].
    unfold dayNightEffect, dayNightRequest. by rewrite Hmode, Hm. }
  assert (Hsame : settings w1 = settings w ->
                  timers (if dayNightDepsChanged w w1 then dayNightEffect p hours w1 else w1)
                  = timers w).
  { intros Hs. rewrite <- Htm. unfold dayNightDepsChanged.
    rewrite Hs, Hbg, Hnx, Bool.eqb_reflx, !String.eqb_refl. cbn [negb orb].
    by rewrite bool_decide_eq_true_2. }
  split_and!; try done.
  - intros Ev. destruct (Hvid Ev) as [Hs Ht]. fold url in Hs, Ht.
    split_and!; [done|done|].
    intros Hon Hact Hold Hb Hn.
    assert (Hc : dayNightDepsChanged w w1 = true).
    { unfold dayNightDepsChanged. rewrite Hs. unfold with_slot.
      destruct isDaySlot; cbn [dayBgUrl nightBgUrl with_dayBgUrl with_nightBgUrl];
        apply String.eqb_neq in Hold; rewrite Hold; cbn [negb orb];
        rewrite ?orb_true_r; reflexivity. }
    rewrite Hc. unfold dayNightEffect.
    rewrite (dayNightRequest_blob hours w1 url).
    + unfold triggerBgTransition. rewrite Hbg.
      assert (E : String.eqb url (bgImage w) = false)
        by (apply String.eqb_neq; congruence).
      rewrite E. unfold setTimeout. cbn [timers with_timers]. rewrite Htm.
      do 3 f_equal. subst w1.
      unfold handleDayNightUpload, createObjectURL, setSettings. by rewrite Ev.
    + by rewrite Hmode.
    + rewrite Hs. unfold desiredSource, with_slot. rewrite <- Hact.
      by destruct isDaySlot.
    + apply (startsWith_append "blob:").
    + by rewrite Hbg.
    + by rewrite Hnx.
  - intros Ev. destruct (Himg Ev) as (H1 & H2 & H3). split_and!; [done| |done].
    intros Hf. destruct (H2 Hf) as [Hs Hl]. split_and!; [done|done|]. by apply Hsame.
  - unfold rerunEffects, restoreDepsChanged, dayNightDepsChanged. rewrite Hnone.
    rewrite Bool.eqb_reflx, !String.eqb_refl. cbn [negb orb].
    by rewrite bool_decide_eq_true_2.
Qed.



(** ** The settings loader *)

(** X19: migrating is idempotent, and it never changes a stored
    property: whatever the stored object has under a key other than
    [clockStyle] is still there afterwards, and so is a stored
    [clockStyle] that names a member of the enum. *)
Theorem migrate_idempotent (stored : gmap string json) :
  migrate (migrate stored) = migrate stored /\
  (forall k v, stored !! k = Some v ->
     k <> "clockStyle" \/ isClockStyle (Some v) = true ->
     migrate stored !! k = Some v).
Proof.
  destruct (migrate_always stored) as (Hc & Hm).
  assert (Hfill : forall k d o, is_Some (o !! k) -> fillDefault k d o = o).
  { intros k d o [v Hv]. unfold fillDefault. by rewrite Hv. }
  split_and!.
  - rewrite (migrate_unfold (migrate stored)). unfold checkClockStyle. rewrite Hc.
    unfold migrated in Hm.
    apply Forall_cons in Hm as [H1 Hm]. apply Forall_cons in Hm as [H2 Hm].
    apply Forall_cons in Hm as [H3 Hm]. apply Forall_cons in Hm as [H4 Hm].
    apply Forall_cons in Hm as [H5 _]. cbn [fst] in *.
    rewrite (Hfill "clockScale") by done. rewrite (Hfill "calendarScale") by done.
    rewrite (Hfill "enableDayNightMode") by done. rewrite (Hfill "dayBgUrl") by done.
    by rewrite (Hfill "nightBgUrl").
  - intros k v Hk Hv. destruct (migrate_lookup stored) as (Lc & Lm & Lo).
    destruct (decide (k = "clockStyle")) as [->|Hne].
    { destruct Hv as [Hv|Hv]; [done|]. rewrite Lc, Hk, Hv. done. }
    destruct (decide (k ∈ migrated.*1)) as [Hin|Hnin].
    + apply list_elem_of_fmap in Hin as ([k' d] & -> & Hin).
      rewrite Forall_forall in Lm. rewrite (Lm _ Hin). cbn [fst snd] in *.
      by rewrite Hk.
    + rewrite Lo by done. done.
Qed.
(** ** The image generator *)

Lemma firstImage_spec (parts : list Part) (url : string) :
  firstImage parts = Some url <->
  exists before part rest,
    parts = (before ++ part :: rest)%list /\
    Forall (fun q => imageOfPart q = None) before /\ imageOfPart part = Some url.
Proof.
  induction parts as [|q parts IH]; cbn [firstImage].
  - split; [done|]. intros (before & part & rest & H & _). by destruct before.
  - destruct (imageOfPart q) as [u|] eqn:E.
    + split.
      * intros [= ->]. exists [], q, parts. by split_and!.
      * intros ([|q' before] & part & rest & H & Hb & Hp); simplify_eq/=;
          try congruence.
        apply Forall_cons in Hb as [Hb _]. congruence.
    + rewrite IH. split.
      * intros (before & part & rest & -> & Hb & Hp).
        exists (q :: before), part, rest. split_and!; [done| |done].
        by apply Forall_cons_2.
      * intros ([|q' before] & part & rest & H & Hb & Hp); simplify_eq/=;
          try congruence.
        apply Forall_cons in Hb as [_ Hb]. by exists before, part, rest.
Qed.

Lemma firstImage_None (parts : list Part) :
  firstImage parts = None <-> Forall (fun q => imageOfPart q = None) parts.
Proof.
  induction parts as [|q parts IH]; cbn [firstImage]; [done|].
  destruct (imageOfPart q) as [u|] eqn:E.
  - split; [done|]. intros H. apply Forall_cons in H as [H _]. congruence.
  - rewrite IH. split; [intros H; by apply Forall_cons_2|].
    intros H. by apply Forall_cons in H as [_ H].
Qed.

(** X20: without an API key [generateAiBackground] fails before it
    sends anything and logs nothing.  With a key it sends one request
    whose text contains the prompt, and resolves exactly when the reply
    has a part with non-empty inline data: the result is then the
    [data:] URL of the first such part, and nothing is logged.  A
    rejected request, a reply without parts and a reply none of whose
    parts carries data all fail, each with one console error. *)
Theorem generateAiBackground_outcomes (prompt apiKey : string)
    (reply : option (option (list Part))) :
  let call := generateAiBackground prompt apiKey reply in
  (apiKey = "" -> call = mkAiCall None (inr ApiKeyMissing) []) /\
  (apiKey <> "" ->
     (exists before after, ai_request call = Some (before +:+ prompt +:+ after)) /\
     (forall url,
        ai_result call = inl url <->
        exists before part rest,
          reply = Some (Some (before ++ part :: rest)%list) /\
          Forall (fun q => imageOfPart q = None) before /\ imageOfPart part = Some url) /\
     (forall url, ai_result call = inl url ->
        startsWith url "data:" = true /\ ai_console call = []) /\
     (forall e, ai_result call = inr e ->
        ai_console call = [EvConsoleError "Gemini Image Generation Error:"] /\
        (e = RequestFailed <-> reply = None) /\
        (e = NoImageData <->
         exists parts, reply = Some parts /\
           Forall (fun q => imageOfPart q = None) (default [] parts)))).
Proof.
  intros call. subst call. unfold generateAiBackground. split.
  - by intros ->.
  - intros Hk. apply String.eqb_neq in Hk. rewrite Hk.
    destruct reply as [parts|].
    + destruct (firstImage (default [] parts)) as [u|] eqn:E; cbn [ai_request ai_result ai_console].
      * split_and!.
        -- by eexists _, _.
        -- intros url. split.
           ++ intros [= <-]. apply firstImage_spec in E as (before & part & rest & H & Hb & Hp).
              exists before, part, rest. split_and!; [|done..].
              destruct parts as [l|]; simpl in H; [by subst|by destruct before].
           ++ intros (before & part & rest & [= ->] & Hb & Hp). simpl in E.
              assert (firstImage (before ++ part :: rest) = Some url) as E'
                by (apply firstImage_spec; by exists before, part, rest).
              congruence.
        -- intros url [= <-]. split; [|done].
           apply firstImage_spec in E as (_ & part & _ & _ & _ & Hp).
           unfold imageOfPart in Hp. repeat case_match; simplify_eq.
           apply (startsWith_append "data:").
        -- done.
      * split_and!.
        -- by eexists _, _.
        -- intros url. split; [done|].
           intros (before & part & rest & [= ->] & Hb & Hp). simpl in E.
           assert (firstImage (before ++ part :: rest) = Some url) as E'
             by (apply firstImage_spec; by exists before, part, rest).
           congruence.
        -- done.
        -- intros e [= <-]. split_and!; [done|done|].
           split; [|done]. intros _. exists parts. split; [done|]. by apply firstImage_None.
    + cbn [ai_request ai_result ai_console]. split_and!.
      * by eexists _, _.
      * intros url. split; [done|]. by intros (? & ? & ? & ? & _).
      * done.
      * intros e [= <-]. split_and!; [done|done|]. split; [done|]. by intros (? & ? & _).
Qed.
(** ** Object URLs *)

Lemma creations_app (url : string) (l1 l2 : list Event) :
  creations url (l1 ++ l2) = creations url l1 + creations url l2.
Proof. unfold creations. by rewrite List.filter_app, length_app. Qed.

(** What one action adds to the trace: either nothing about object URLs,
    or one new URL, revoked at most once. *)
Lemma perform_urls (a : Action) (w : World) :
  exists evs,
    trace (perform a w) = (trace w ++ evs)%list /\
    ((objectURLs (perform a w) = objectURLs w /\
      forall u, creations u evs = 0 /\ releases u evs = 0) \/
     (objectURLs (perform a w) = S (objectURLs w) /\
      forall u,
        creations u evs =
          (if String.eqb ("blob:" +:+ pretty (objectURLs w)) u then 1 else 0) /\
        releases u evs <= creations u evs)).
Proof.
  assert (N : forall l : list Event, l = (l ++ [])%list) by (intros; by rewrite app_nil_r).
  destruct a as [p b s t|p|p h|f c h p|f h p|f d c|e r c h p|f|n t]; cbn [perform].
  all: unfold restoreBackground, dayNightEffect, handleImageFileChange,
         handleVideoFileChange, handleDayNightUpload, handleFetchBg, fire,
         compressImage, getAssetFromDB.
  all: repeat case_match; simplify_eq.
  all: unfold triggerBgTransition, saveAssetToDB, createObjectURL, revokeObjectURL,
         setSettings, consoleWarn, consoleError, setTimeout in *.
  all: repeat case_match; simplify_eq.
  all: try rewrite runCallback_swap.
  all: try (match goal with |- context [runCallback ?c _] => destruct c as [[] ? [] ?| | |? ? ?|] end).
  all: cbn [runCallback requestAnimationFrame setTimeout consoleWarn trace emit with_timers
            with_objectURLs with_settings with_db with_now objectURLs fst snd
            setNextBgImage setNextBgType setIsBgTransitioning setBgImage setBgType].
  all: try (destruct (startsWith _ _ && _); cbn [trace objectURLs with_timers with_now]).
  all: rewrite <- ?app_assoc.
  all: eexists; (split; [first [reflexivity | apply N]|]).
  all: first
    [ left; (split; [reflexivity|]); intros u; split; reflexivity
    | right; (split; [reflexivity|]); intros u;
      unfold creations, releases; cbn [app List.filter isCreateOf isRevokeOf];
      destruct (String.eqb _ u); cbn [length]; (split; [reflexivity|lia]) ].
Qed.

Lemma urlDiscipline_step (w w' : World) :
  step w w' -> urlDiscipline w -> urlDiscipline w'.
Proof.
  intros [a ->] Inv u. destruct (Inv u) as (Hr & Hc & Hk).
  destruct (perform_urls a w) as (evs & -> & [[-> Hn]|[-> Hn]]);
    destruct (Hn u) as [Hcu Hru]; rewrite releases_app, creations_app.
  - rewrite Hcu, Hru, !Nat.add_0_r. done.
  - rewrite Hcu in *. destruct (String.eqb _ u) eqn:E.
    + apply String.eqb_eq in E. subst u.
      assert (creations ("blob:" +:+ pretty (objectURLs w)) (trace w) = 0) as Z.
      { destruct (creations _ (trace w)) eqn:Ec; [done|].
        destruct Hk as (k & Hlt & Hk); [lia|].
        apply (inj (String.app "blob:")), (inj pretty) in Hk. lia. }
      rewrite Z in *. split_and!; [lia|lia|]. intros _. exists (objectURLs w). split; [lia|done].
    + split_and!; [lia|lia|]. rewrite Nat.add_0_r. intros H.
      destruct (Hk H) as (k & Hlt & ->). exists k. split; [lia|done].
Qed.

(** X21: at every reachable state, each object URL that appears in the
    trace was handed out exactly once, by the allocator, and has been
    revoked at most once and not before it was handed out: the
    component never revokes a URL twice and never revokes one it did
    not create. *)
Theorem reachable_urlDiscipline (w : World) : reachable w -> urlDiscipline w.
Proof.
  intros (s & store & up & urls & H). revert w H.
  apply rtc_ind_r.
  - intros u. cbn [mount trace]. split_and!; [done|cbn; lia|cbn; lia].
  - intros y z _ Hstep IH. by eapply urlDiscipline_step.
Qed.

End App.

(** * The properties on sample inputs *)

(** Nine in the morning and eleven at night. *)
Lemma desiredSource_by_hour_witness :
  desiredSource 9 "day.jpg" "night.jpg" = "day.jpg" /\
  desiredSource 23 "day.jpg" "night.jpg" = "night.jpg".
Proof.
  split.
  - destruct (desiredSource_by_hour 9 "day.jpg" "night.jpg") as (H & _).
    apply H. lia.
  - destruct (desiredSource_by_hour 23 "day.jpg" "night.jpg") as (_ & H & _).
    apply H. lia.
Defined.

(** At noon the day picture is already on screen: no request; at ten
    in the evening the night picture is asked for, and it is not the one
    on screen. *)
Lemma dayNight_requests_only_new_source_witness :
  dayNightRequest 12 dayNightRun = None /\
  dayNightEffect quick 12 dayNightRun = dayNightRun /\
  DEFAULT_NIGHT_BG <> bgImage dayNightRun.
Proof.
  destruct (dayNight_requests_only_new_source quick 12 dayNightRun) as (_ & H & _).
  destruct (dayNight_requests_only_new_source quick 22 dayNightRun) as (H' & _).
  split; [apply H; left; reflexivity|].
  split; [apply H; left; reflexivity|].
  apply (H' DEFAULT_NIGHT_BG image). reflexivity.
Defined.

(** A 4000x2000 photo is drawn on a 1920x960 canvas and encoded as JPEG. *)
Lemma compressImage_bound_and_encoding_witness :
  fst (compressImage sampleEncoder (ABlob photo) (Some (4000, 2000)%Z) true firstRun) =
  Resolved (sampleEncoder (mkCanvas 1920 960 (ABlob photo)) "image/jpeg" (7 # 10)%Q).
Proof.
  destruct (compressImage_bound_and_encoding sampleEncoder (ABlob photo) 4000 2000
              firstRun ltac:(lia) ltac:(lia)) as (_ & _ & _ & H & _).
  exact H.
Defined.

(** C7 as stated fails: a decodable image for which the compressor
    rejects, and not with a decode error. *)
Lemma compressImage_fails_without_context :
  blob_image photo = Some (4000, 2000)%Z /\
  fst (compressImage sampleEncoder (ABlob photo) (blob_image photo) false firstRun) =
  Rejected CanvasContextFailed.
Proof. split; reflexivity. Qed.




(** A stored picture is back on screen after the restoration. *)
Lemma restore_round_trip_witness :
  let w := runLoop 5 (restoreBackground quick (mount defaultSettings pictureStore true 0)) in
  bgImage w = "data:image/jpeg;base64,AAAA" /\ bgType w = image.
Proof.
  destruct (restore_round_trip quick defaultSettings pictureStore 0
              (AStr "data:image/jpeg;base64,AAAA") image
              ltac:(reflexivity) ltac:(reflexivity) ltac:(reflexivity))
    as (_ & _ & H).
  apply H; [discriminate|left; reflexivity].
Defined.

(** C3 as stated fails for a video: the store holds the file itself, and
    after a reload the source on screen is an object URL made anew,
    neither the stored data nor the source shown when it was stored. *)
Lemma restore_video_source_differs :
  let w1 := runLoop 5 (handleVideoFileChange (Some clip) 12 quick firstRun) in
  let w2 := runLoop 5 (restoreBackground quick (reload w1)) in
  db w1 !! KEY_BG = Some (ABlob clip) /\
  db w1 !! KEY_BG_TYPE = Some (AStr "video") /\
  bgImage w1 = "blob:0" /\ bgType w1 = video /\
  bgImage w2 = "blob:1" /\ bgType w2 = video /\
  bgImage w2 <> bgImage w1 /\ AStr (bgImage w2) <> ABlob clip.
Proof.
  intros w1 w2.
  assert (E1 : bgImage w1 = "blob:0") by (vm_compute; reflexivity).
  assert (E2 : bgImage w2 = "blob:1") by (vm_compute; reflexivity).
  split; [vm_compute; reflexivity|]. split; [vm_compute; reflexivity|].
  split; [exact E1|]. split; [vm_compute; reflexivity|].
  split; [exact E2|]. split; [vm_compute; reflexivity|].
  rewrite E1, E2. split; discriminate.
Qed.

(** A broken picture uploaded in day/night mode: the settings are
    untouched and a preload of the reader's data URL is pending. *)
Lemma handleImageFileChange_dayNight_decode_failure_witness :
  let w' := handleImageFileChange sampleEncoder (Some brokenPhoto) true 12 quick dayNightRun in
  settings w' = dayNightSettings /\
  timers w' =
    [mkTimer 40 (CbPreloadDone true "data:image/png;base64,0000" image DEFAULT_BG)].
Proof.
  destruct (handleImageFileChange_dayNight_decode_failure sampleEncoder brokenPhoto
              true 12 quick dayNightRun ltac:(reflexivity) ltac:(reflexivity))
    as (H1 & _ & _ & H2).
  split; [exact H1|]. apply H2. discriminate.
Defined.

(** A video that fails to load is on screen in the end, with an empty
    trace. *)
Lemma video_preload_failure_not_logged_witness :
  let failed :=
    runLoop 5 (triggerBgTransition (mkPreload false 40) DEFAULT_BG "clip.mp4" video firstRun) in
  bgImage failed = "clip.mp4" /\ bgType failed = video /\ trace failed = [].
Proof.
  destruct (video_preload_failure_not_logged DEFAULT_BG "clip.mp4" 40 firstRun
              ltac:(reflexivity) ltac:(discriminate))
    as (_ & H1 & H2 & _ & H3 & _).
  split; [exact H1|]. split; [exact H2|exact H3].
Defined.

(** From the stored text [{}] the loader builds the six properties it
    knows how to fill. *)
Lemma loadSettings_migrates_witness :
  props (loadSettings sampleParse (Some "{}")) !! "clockStyle" = Some (JStr "IOS_MODERN") /\
  Forall (fun kd => props (loadSettings sampleParse (Some "{}")) !! kd.1 = Some kd.2)
    migrated.
Proof.
  destruct (loadSettings_migrates sampleParse (Some "{}")) as (_ & _ & H & _).
  destruct (H "{}" [] ltac:(reflexivity) ltac:(discriminate) ltac:(reflexivity))
    as (H1 & H2 & _).
  split; [exact H1|exact H2].
Defined.

(** C10 as stated fails: from a stored record without the older
    properties the loader returns an object that lacks them. *)
Lemma loadSettings_not_fully_populated :
  props (loadSettings sampleParse (Some "{}")) !! "showSeconds" = None /\
  ~ fullyPopulated (loadSettings sampleParse (Some "{}")) /\
  ~ validAppSettings (loadSettings sampleParse (Some "{}")).
Proof.
  assert (E : props (loadSettings sampleParse (Some "{}")) !! "showSeconds" = None).
  { destruct (migrate_lookup ∅) as (_ & _ & H).
    change (migrate ∅ !! "showSeconds" = None). rewrite H; [done|done|].
    cbn. rewrite !not_elem_of_cons. split_and!; try done. apply not_elem_of_nil. }
  split; [exact E|]. split.
  - intros H. unfold fullyPopulated in H. apply Forall_cons in H as [H _].
    rewrite E in H. by destruct H.
  - intros [s H]. unfold asAppSettings, getBool in H. by rewrite E in H.
Qed.

(** The first run has finished its transition to the new picture; a
    callback that closed over the default picture asks for the picture
    on screen, and so does the callback of the current render.  Then the
    photo that was uploaded a moment ago is uploaded again. *)
Lemma triggerBgTransition_guard_uses_captured_source_witness :
  bgImage afterSwap = "next.jpg" /\
  nextBgImage (runLoop 1 (triggerBgTransition quick DEFAULT_BG (bgImage afterSwap) image
                            afterSwap)) = Some (bgImage afterSwap) /\
  triggerBgTransition quick (bgImage afterSwap) (bgImage afterSwap) image afterSwap =
  afterSwap /\
  timers (handleImageFileChange sampleEncoder (Some photo) true 9 quick
            (runLoop 5 (handleImageFileChange sampleEncoder (Some photo) true 9 quick
                          firstRun))) =
  timers (runLoop 5 (handleImageFileChange sampleEncoder (Some photo) true 9 quick firstRun)).
Proof.
  assert (Hne : DEFAULT_BG <> bgImage afterSwap).
  { intros E. vm_compute in E. discriminate E. }
  destruct (triggerBgTransition_guard_uses_captured_source sampleEncoder quick DEFAULT_BG
              image afterSwap) as (_ & H & _).
  destruct (H Hne) as (_ & _ & H1). destruct (H1 eq_refl) as (H2 & _).
  destruct (triggerBgTransition_guard_uses_captured_source sampleEncoder quick
              (bgImage afterSwap) image afterSwap) as (H3 & _).
  destruct (triggerBgTransition_guard_uses_captured_source sampleEncoder quick DEFAULT_BG
              image
              (runLoop 5 (handleImageFileChange sampleEncoder (Some photo) true 9 quick
                            firstRun))) as (_ & _ & _ & _ & _ & H4).
  destruct (H4 photo 4000%Z 2000%Z 9%Z eq_refl eq_refl eq_refl eq_refl) as (_ & _ & H5 & _).
  split; [reflexivity|]. split; [exact H2|]. split; [apply H3; reflexivity|exact H5].
Defined.

(** ** Further properties on sample inputs *)

(** An upper-case extension and an object URL. *)
Lemma isVideoUrl_extension_or_blob_witness :
  isVideoUrl ("Clip" +:+ ".MP4") = true /\ isVideoUrl "blob:0" = true.
Proof.
  split.
  - destruct (isVideoUrl_extension_or_blob "Clip" ".MP4") as (H & _).
    apply H. left. reflexivity.
  - destruct (isVideoUrl_extension_or_blob "blob:0" "") as (_ & H & _).
    apply H. reflexivity.
Defined.

(** A clip uploaded at nine in the morning in day/night mode. *)
Lemma dayNight_video_upload_is_scheduled_witness :
  dayNightRequest 9 (handleVideoFileChange (Some clip) 9 quick dayNightRun) =
  Some ("blob:" +:+ pretty (objectURLs dayNightRun), video).
Proof.
  apply (dayNight_video_upload_is_scheduled clip 9 quick dayNightRun).
  - reflexivity.
  - intros H. vm_compute in H. discriminate H.
  - intros H. discriminate H.
Defined.

(** One press of each button changes the style. *)
Lemma toggleClockStyle_cycle_witness :
  clockStyle (settings (Nat.iter 1 toggleClockStyle firstRun)) <>
  clockStyle (settings firstRun).
Proof.
  destruct (toggleClockStyle_cycle firstRun) as (_ & H & _). apply (H 1). lia.
Defined.

Lemma toggleCalendarStyle_cycle_witness :
  calendarStyle (settings (Nat.iter 1 toggleCalendarStyle firstRun)) <>
  calendarStyle (settings firstRun).
Proof.
  destruct (toggleCalendarStyle_cycle firstRun) as (_ & H & _). apply (H 1). lia.
Defined.

(** Three in the afternoon. *)
Lemma civilianHour_round_trip_witness :
  (1 <= civilianHour 15 <= 12)%Z /\ (ampm 15 = "下午" <-> (12 <= 15)%Z).
Proof.
  destruct (civilianHour_round_trip 15 ltac:(lia)) as (H1 & H2 & _). by split.
Defined.

(** Seven minutes. *)
Lemma two_digit_formatting_witness :
  formatMinSec 7 = String (digitChar (7 / 10)) (String (digitChar (7 mod 10)) "") /\
  formatHour true 7 = formatMinSec 7.
Proof.
  destruct (two_digit_formatting 7 ltac:(lia)) as (H1 & H2 & _). by split.
Defined.

(** Eleven at night belongs to the first double hour. *)
Lemma getShichen_double_hours_witness :
  getShichen 23 = earthlyBranches !! Z.to_nat (((23 + 1) / 2) mod 12) /\
  (getShichen 23 = getShichen 0 <->
   (((23 + 1) / 2) mod 12 = ((0 + 1) / 2) mod 12)%Z).
Proof.
  destruct (getShichen_double_hours 23 ltac:(lia)) as (_ & _ & H1 & H2).
  split; [exact H1|]. apply H2. lia.
Defined.

(** Twelve has a reading; minus one has none. *)
Lemma toChineseNum_readings_witness :
  is_Some (toChineseNum 12 true) /\ toChineseNum (-1) false = None.
Proof.
  split.
  - destruct (toChineseNum_readings 12 true) as (H & _). apply H. lia.
  - destruct (toChineseNum_readings (-1) false) as (_ & _ & H). apply H. lia.
Defined.

(** The canvas of a 4000x2000 picture is left alone by a second pass. *)
Lemma targetSize_never_enlarges_witness :
  targetSize (fst (targetSize 4000 2000)) (snd (targetSize 4000 2000)) =
  (fst (targetSize 4000 2000), snd (targetSize 4000 2000)).
Proof.
  destruct (targetSize_never_enlarges 4000 2000 ltac:(lia) ltac:(lia)) as (_ & _ & H).
  exact H.
Defined.

(** A 10000x2 strip is scaled to a canvas of height 0. *)
Lemma targetSize_collapses_only_beyond_3840_witness :
  Z.min (fst (targetSize 10000 2)) (snd (targetSize 10000 2)) = 0%Z.
Proof.
  apply (targetSize_collapses_only_beyond_3840 10000 2 ltac:(lia) ltac:(lia)
           ltac:(left; lia)).
  reflexivity.
Defined.

(** Startup in day/night mode, and startup over an empty store. *)
Lemma restoreBackground_nothing_to_restore_witness :
  restoreBackground quick dayNightRun = dayNightRun /\
  restoreBackground quick firstRun =
    emit (EvDbGet KEY_BG) (emit (EvDbGet KEY_BG_TYPE) firstRun).
Proof.
  split.
  - destruct (restoreBackground_nothing_to_restore quick dayNightRun) as (H & _).
    apply H. reflexivity.
  - destruct (restoreBackground_nothing_to_restore quick firstRun) as (_ & H).
    destruct (H eq_refl) as (H1 & _). apply H1; [reflexivity|]. left. reflexivity.
Defined.

(** The 4000x2000 photo uploaded into a fresh application. *)
Lemma image_upload_end_to_end_witness :
  db (runLoop 5 (handleImageFileChange sampleEncoder (Some photo) true 9 quick firstRun))
    !! KEY_BG_TYPE = Some (AStr "image") /\
  timers (runLoop 5 (handleImageFileChange sampleEncoder (Some photo) true 9 quick firstRun))
    = [].
Proof.
  destruct (image_upload_end_to_end sampleEncoder photo 4000 2000 9 quick firstRun
              eq_refl eq_refl eq_refl eq_refl) as (_ & H1 & _ & H2 & _).
  by split.
Defined.

(** The network is down when a fresh application fetches its picture. *)
Lemma handleFetchBg_fallback_witness :
  db (runLoop 5 (handleFetchBg sampleEncoder "1700000000000" None true 9 quick firstRun))
    !! KEY_BG =
  Some (AStr (cacheBusted (bingApiUrl (settings firstRun)) "1700000000000")).
Proof.
  assert (Hurl : bingApiUrl (settings firstRun) <> "") by (intros E; discriminate E).
  destruct (handleFetchBg_fallback sampleEncoder "1700000000000" None true 9 quick firstRun)
    as (_ & H).
  destruct (H Hurl eq_refl eq_refl eq_refl (or_introl eq_refl)) as (_ & _ & H1 & _).
  exact H1.
Defined.


(** A clip uploaded into the day slot at nine in the morning, in
    day/night mode: the slot holds its URL and the preload is pending. *)
Lemma handleDayNightUpload_fills_chosen_slot_witness :
  settings (rerunEffects quick 9 dayNightRun
              (handleDayNightUpload sampleEncoder (Some clip) true true dayNightRun)) =
  with_slot true ("blob:" +:+ pretty (objectURLs dayNightRun)) (settings dayNightRun) /\
  timers (rerunEffects quick 9 dayNightRun
            (handleDayNightUpload sampleEncoder (Some clip) true true dayNightRun)) =
  (timers dayNightRun ++
   [mkTimer (now dayNightRun + latency quick)
      (CbPreloadDone (loaded quick) ("blob:" +:+ pretty (objectURLs dayNightRun)) video
         (bgImage dayNightRun))])%list.
Proof.
  destruct (handleDayNightUpload_fills_chosen_slot sampleEncoder clip true true quick 9
              dayNightRun) as (H & _).
  destruct (H eq_refl) as (H1 & _ & H2).
  split; [exact H1|]. apply H2.
  - reflexivity.
  - reflexivity.
  - intros E. vm_compute in E. discriminate E.
  - intros E. vm_compute in E. discriminate E.
  - intros E. discriminate E.
Defined.


(** A stored record with one property keeps it. *)
Lemma migrate_idempotent_witness :
  migrate {["showSeconds" := JBool false]} !! "showSeconds" = Some (JBool false).
Proof.
  destruct (migrate_idempotent {["showSeconds" := JBool false]}) as (_ & H).
  apply H; [|left; intros E; discriminate E]. apply lookup_singleton_eq.
Defined.

(** No key configured; and a key with a request that is rejected. *)
Lemma generateAiBackground_outcomes_witness :
  generateAiBackground "sunset" "" None = mkAiCall None (inr ApiKeyMissing) [] /\
  (exists before after,
     ai_request (generateAiBackground "sunset" "key" None) =
     Some (before +:+ "sunset" +:+ after)).
Proof.
  split.
  - destruct (generateAiBackground_outcomes "sunset" "" None) as (H & _).
    apply H. reflexivity.
  - destruct (generateAiBackground_outcomes "sunset" "key" None) as (_ & H).
    destruct H as (H & _); [intros E; discriminate E|]. exact H.
Defined.

(** After a clip has been uploaded into a fresh application. *)
Lemma reachable_urlDiscipline_witness :
  urlDiscipline (handleVideoFileChange (Some clip) 9 quick firstRun).
Proof.
  apply (reachable_urlDiscipline sampleEncoder).
  exists defaultSettings, ∅, true, 0. apply rtc_once.
  exists (ActVideoFile (Some clip) 9 quick). reflexivity.
Defined.

